(** * ArcaneWeaver entity-system components: a shallow embedding of
    [arcaneweaver/core/entity_system/components.py].

    Python [float] values are modelled as rationals [Q] (the code only adds,
    compares and picks among values); Python [int] as [Z].  Pydantic models are
    records; pydantic validation is written out field by field in declaration
    order, with the [validation_info.data] dictionary made explicit: during
    construction it holds only the fields declared (and validated) before the
    current one, during assignment ([validate_assignment=True]) it holds all
    the other fields of the instance.  Mutating methods pass the instance as
    explicit state; a raised exception is an [outcome] that still carries the
    state reached so far, as Python keeps in-place mutations done before the
    [raise]. *)

From Stdlib Require Import ZArith QArith List String Bool Lia Lqa.
Import ListNotations.
Open Scope string_scope.
Set Warnings "-register-all".

(** ** Python values, exceptions and outcomes *)

(** The scalar/nested values of a pydantic record ([model_dump]). *)
Inductive pyval : Type :=
| VNone
| VBool (b : bool)
| VInt (z : Z)
| VFloat (q : Q)
| VStr (s : string)
| VList (l : list pyval)
| VDict (d : list (string * pyval)).

Definition record := list (string * pyval).

Fixpoint lookup (k : string) (d : record) : option pyval :=
  match d with
  | [] => None
  | (k', v) :: d' => if String.eqb k k' then Some v else lookup k d'
  end.

(** [values.get(k)] for an optional float field: [None] when the key is
    missing or holds [None]. *)
Definition get_float (k : string) (d : record) : option Q :=
  match lookup k d with
  | Some (VFloat q) => Some q
  | _ => None
  end.

(** A raised Python exception: its class name and its message. *)
Record exn := mkExn { exc_class : string; exc_msg : string }.

Inductive outcome (A : Type) : Type :=
| Ret (a : A)
| Raise (e : exn).
Arguments Ret {A} a.
Arguments Raise {A} e.

Definition ValueError (msg : string) : exn := mkExn "ValueError" msg.
Definition ValidationError (msg : string) : exn := mkExn "ValidationError" msg.

(** Python comparisons on floats. *)
Definition qlt (a b : Q) : bool := negb (Qle_bool b a).
Definition qgt (a b : Q) : bool := qlt b a.

(** [str(n)] for a Python int. *)
Fixpoint digits_of (fuel : nat) (n : Z) (acc : string) : string :=
  match fuel with
  | O => acc
  | S f =>
      let d := Z.to_nat (n mod 10) in
      let acc' := String (Ascii.ascii_of_nat (48 + d)) acc in
      if (n <? 10)%Z then acc' else digits_of f (n / 10) acc'
  end.

Definition str_of_Z (n : Z) : string :=
  if (n <? 0)%Z then "-" ++ digits_of (S (Z.to_nat (Z.log2 (- n)))) (- n) ""
  else digits_of (S (Z.to_nat (Z.log2 n))) n "".

(** ** ComponentType *)

Inductive ComponentType := STAT | INVENTORY | CUSTOM.

Definition component_type_value (t : ComponentType) : string :=
  match t with STAT => "stat" | INVENTORY => "inventory" | CUSTOM => "custom" end.

(** ** StatComponent *)

Record StatComponent := mkStat {
  stat_component_type : ComponentType;
  name : string;
  base_value : Q;
  current_value : Q;
  min_value : option Q;
  max_value : option Q;
  description : string
}.

Definition opt_float (o : option Q) : pyval :=
  match o with Some q => VFloat q | None => VNone end.

(** The fields of a stat as pydantic holds them, in declaration order. *)
Definition stat_data (s : StatComponent) : record :=
  [("component_type", VStr (component_type_value (stat_component_type s)));
   ("name", VStr (name s));
   ("base_value", VFloat (base_value s));
   ("current_value", VFloat (current_value s));
   ("min_value", opt_float (min_value s));
   ("max_value", opt_float (max_value s));
   ("description", VStr (description s))].

Definition remove_key (k : string) (d : record) : record :=
  filter (fun kv => negb (String.eqb k (fst kv))) d.

(** [StatComponent.validate_current_value]: [values] is
    [validation_info.data]. *)
Definition validate_current_value (cv : Q) (values : record) : Q :=
  let min_val := get_float "min_value" values in
  let max_val := get_float "max_value" values in
  match min_val with
  | Some m => if qlt cv m then m else
      match max_val with
      | Some M => if qgt cv M then M else cv
      | None => cv
      end
  | None =>
      match max_val with
      | Some M => if qgt cv M then M else cv
      | None => cv
      end
  end.

(** [StatComponent.validate_base_value] (the same body as above). *)
Definition validate_base_value (bv : Q) (values : record) : Q :=
  let min_val := get_float "min_value" values in
  let max_val := get_float "max_value" values in
  match min_val with
  | Some m => if qlt bv m then m else
      match max_val with
      | Some M => if qgt bv M then M else bv
      | None => bv
      end
  | None =>
      match max_val with
      | Some M => if qgt bv M then M else bv
      | None => bv
      end
  end.

(** [StatComponent(name=..., base_value=..., ...)]: [__init__] copies [base_value] into a missing
    [current_value]; then pydantic validates the fields in declaration order
    ([component_type], [name], [base_value], [current_value], [min_value],
    [max_value], [description]), each field validator seeing in
    [validation_info.data] only the fields before it.  A keyword argument is
    [Some v] when passed, [None] when omitted (defaults are not validated). *)
Definition StatComponent_new (nm : string) (base : option Q) (cur : option Q)
    (minv maxv : option Q) (desc : string) : StatComponent :=
  let cur := match cur with Some c => Some c | None => base end in
  let data0 := [("component_type", VStr "stat"); ("name", VStr nm)] in
  let bv := match base with Some b => validate_base_value b data0 | None => 0%Q end in
  let data1 := app data0 [("base_value", VFloat bv)] in
  let cv := match cur with Some c => validate_current_value c data1 | None => 0%Q end in
  mkStat STAT nm bv cv minv maxv desc.

(** Assignment [stat.current_value = v] under [validate_assignment=True]:
    the validator sees all the other fields. *)
Definition set_current (s : StatComponent) (v : Q) : StatComponent :=
  let v' := validate_current_value v (remove_key "current_value" (stat_data s)) in
  mkStat (stat_component_type s) (name s) (base_value s) v' (min_value s)
    (max_value s) (description s).

(** Assignment [stat.base_value = v]. *)
Definition set_base (s : StatComponent) (v : Q) : StatComponent :=
  let v' := validate_base_value v (remove_key "base_value" (stat_data s)) in
  mkStat (stat_component_type s) (name s) v' (current_value s) (min_value s)
    (max_value s) (description s).

(** [StatComponent.modify_value]. *)
Definition modify_value (s : StatComponent) (modifier : Q) : StatComponent * Q :=
  let new_value := (current_value s + modifier)%Q in
  let new_value := match min_value s with
                   | Some m => if qlt new_value m then m else new_value
                   | None => new_value end in
  let new_value := match max_value s with
                   | Some M => if qgt new_value M then M else new_value
                   | None => new_value end in
  let s' := set_current s new_value in
  (s', current_value s').

(** [StatComponent.reset_to_base]. *)
Definition reset_to_base (s : StatComponent) : StatComponent :=
  set_current s (base_value s).

(** [StatComponent.set_base_value]. *)
Definition set_base_value (s : StatComponent) (new_value : Q) : StatComponent * Q :=
  let new_value := match min_value s with
                   | Some m => if qlt new_value m then m else new_value
                   | None => new_value end in
  let new_value := match max_value s with
                   | Some M => if qgt new_value M then M else new_value
                   | None => new_value end in
  let s1 := set_base s new_value in
  let s2 := set_current s1 new_value in
  (s2, base_value s2).

(** ** StatsComponent *)

Record StatsComponent := mkStats {
  stats_component_type : ComponentType;
  stats : list StatComponent;
  max_stats : option Z
}.

Definition with_stats (sc : StatsComponent) (l : list StatComponent) : StatsComponent :=
  mkStats (stats_component_type sc) l (max_stats sc).

(** [StatsComponent.validate_stats_count] (model validator, mode after). *)
Definition validate_stats_count (sc : StatsComponent) : StatsComponent :=
  match max_stats sc with
  | Some m => if (m <? Z.of_nat (List.length (stats sc)))%Z
              then with_stats sc (firstn (Z.to_nat m) (stats sc)) else sc
  | None => sc
  end.

(** [StatsComponent.get_stat]: the first stat with that name. *)
Fixpoint get_stat_list (nm : string) (l : list StatComponent) : option StatComponent :=
  match l with
  | [] => None
  | s :: l' => if String.eqb (name s) nm then Some s else get_stat_list nm l'
  end.

Definition get_stat (sc : StatsComponent) (nm : string) : option StatComponent :=
  get_stat_list nm (stats sc).

Definition has_stat (sc : StatsComponent) (nm : string) : bool :=
  match get_stat sc nm with Some _ => true | None => false end.

(** The loop of [remove_stat]: [del self.stats[i]] at the first match. *)
Fixpoint remove_first (nm : string) (l : list StatComponent) : list StatComponent * bool :=
  match l with
  | [] => ([], false)
  | s :: l' => if String.eqb (name s) nm then (l', true)
               else let (l'', b) := remove_first nm l' in (s :: l'', b)
  end.

(** [StatsComponent.remove_stat]. *)
Definition remove_stat (sc : StatsComponent) (nm : string) : StatsComponent * bool :=
  let (l, b) := remove_first nm (stats sc) in (with_stats sc l, b).

(** A method call on the stat object returned by [get_stat]: that object is the
    first stat of the list with the name, mutated in place.  [None] when no
    stat has the name. *)
Fixpoint update_stat {A : Type} (nm : string) (f : StatComponent -> StatComponent * A)
    (l : list StatComponent) : list StatComponent * option A :=
  match l with
  | [] => ([], None)
  | s :: l' => if String.eqb (name s) nm then let (s', a) := f s in (s' :: l', Some a)
               else let (l'', r) := update_stat nm f l' in (s :: l'', r)
  end.

(** [StatsComponent.modify_stat]. *)
Definition modify_stat (sc : StatsComponent) (nm : string) (modifier : Q)
    : StatsComponent * option Q :=
  let (l, r) := update_stat nm (fun s => modify_value s modifier) (stats sc) in
  (with_stats sc l, r).

(** [StatsComponent.set_stat_base_value]. *)
Definition set_stat_base_value (sc : StatsComponent) (nm : string) (new_value : Q)
    : StatsComponent * option Q :=
  let (l, r) := update_stat nm (fun s => set_base_value s new_value) (stats sc) in
  (with_stats sc l, r).

(** [StatsComponent.set_stat_current_value]: [stat.current_value = new_value]
    (validated assignment), then [return stat.current_value]. *)
Definition set_stat_current_value (sc : StatsComponent) (nm : string) (new_value : Q)
    : StatsComponent * option Q :=
  let (l, r) := update_stat nm
                  (fun s => let s' := set_current s new_value in (s', current_value s'))
                  (stats sc) in
  (with_stats sc l, r).

(** [StatsComponent.reset_stat_to_base]. *)
Definition reset_stat_to_base (sc : StatsComponent) (nm : string) : StatsComponent * bool :=
  let (l, r) := update_stat nm (fun s => (reset_to_base s, tt)) (stats sc) in
  (with_stats sc l, match r with Some _ => true | None => false end).

Definition duplicate_msg (nm : string) : string :=
  "Stat with name '" ++ nm ++ "' already exists. Use replace_if_exists=True to replace it.".

Definition capacity_msg (m : Z) : string :=
  "Cannot add stat: maximum number of stats (" ++ str_of_Z m ++ ") reached".

(** [StatsComponent.add_stat]; [current_value] is [None] when not supplied,
    [min_value] and [max_value] are passed to the constructor either way. *)
Definition add_stat (sc : StatsComponent) (nm : string) (base : Q) (cur : option Q)
    (minv maxv : option Q) (desc : string) (replace_if_exists : bool)
    : StatsComponent * outcome StatComponent :=
  let existing := get_stat sc nm in
  let step1 : StatsComponent * outcome unit :=
    match existing with
    | Some _ => if replace_if_exists then (fst (remove_stat sc nm), Ret tt)
                else (sc, Raise (ValueError (duplicate_msg nm)))
    | None => (sc, Ret tt)
    end in
  match step1 with
  | (sc1, Raise e) => (sc1, Raise e)
  | (sc1, Ret _) =>
      match max_stats sc1 with
      | Some m => if (m <=? Z.of_nat (List.length (stats sc1)))%Z
                  then (sc1, Raise (ValueError (capacity_msg m)))
                  else let s := StatComponent_new nm (Some base) cur minv maxv desc in
                       (with_stats sc1 (app (stats sc1) [s]), Ret s)
      | None => let s := StatComponent_new nm (Some base) cur minv maxv desc in
                (with_stats sc1 (app (stats sc1) [s]), Ret s)
      end
  end.

(** ** InventoryCellComponent *)

Open Scope Z_scope.

Notation "'let?' x ':=' a 'in' b" :=
  (match a with Ret x => b | Raise e => Raise e end)
  (at level 200, x name, a at level 100, b at level 200).

Record InventoryCellComponent := mkCell {
  cell_component_type : ComponentType;
  item_id : option string;
  quantity : Z;
  max_stack_size : Z;
  slot_type : option string;
  is_equipped : bool
}.

Definition opt_str (o : option string) : pyval :=
  match o with Some s => VStr s | None => VNone end.

(** Python [self.item_id == item_id] for an [Optional[str]] and a [str]. *)
Definition item_is (o : option string) (s : string) : bool :=
  match o with Some s' => String.eqb s' s | None => false end.

(** [InventoryCellComponent.is_empty]. *)
Definition is_empty (c : InventoryCellComponent) : bool :=
  (quantity c =? 0) || match item_id c with None => true | Some _ => false end.

(** [InventoryCellComponent.is_full]. *)
Definition is_full (c : InventoryCellComponent) : bool :=
  max_stack_size c <=? quantity c.

(** [InventoryCellComponent.add_items]; [model_copy(update=...)] does not
    validate, so the two fields are written as given. *)
Definition add_items (c : InventoryCellComponent) (iid : string) (add_quantity : Z)
    : InventoryCellComponent * Z :=
  if add_quantity <=? 0 then (c, 0)
  else if negb (is_empty c) && negb (item_is (item_id c) iid) then (c, 0)
  else
    let available_space := max_stack_size c - quantity c in
    let actual_add := Z.min add_quantity available_space in
    (mkCell (cell_component_type c) (Some iid) (quantity c + actual_add)
       (max_stack_size c) (slot_type c) (is_equipped c), actual_add).

(** [InventoryCellComponent.remove_items] (again through [model_copy]). *)
Definition remove_items (c : InventoryCellComponent) (remove_quantity : Z)
    : InventoryCellComponent * Z :=
  if (remove_quantity <=? 0) || is_empty c then (c, 0)
  else
    let actual_remove := Z.min remove_quantity (quantity c) in
    let new_quantity := quantity c - actual_remove in
    let new_id := if new_quantity =? 0 then None else item_id c in
    (mkCell (cell_component_type c) new_id new_quantity
       (max_stack_size c) (slot_type c) (is_equipped c), actual_remove).

(** [model_dump()] of a cell. *)
Definition cell_dump (c : InventoryCellComponent) : record :=
  [("component_type", VStr (component_type_value (cell_component_type c)));
   ("item_id", opt_str (item_id c));
   ("quantity", VInt (quantity c));
   ("max_stack_size", VInt (max_stack_size c));
   ("slot_type", opt_str (slot_type c));
   ("is_equipped", VBool (is_equipped c))].

(** [InventoryCellComponent.validate_quantity]: [values] is
    [validation_info.data], read with [values.get("max_stack_size", 1)]. *)
Definition validate_quantity (q : Z) (values : record) : Z :=
  let max_stack := match lookup "max_stack_size" values with
                   | Some (VInt m) => m
                   | _ => 1
                   end in
  if q >? max_stack then max_stack else q.

Definition parse_component_type (default : ComponentType) (v : option pyval)
    : outcome ComponentType :=
  match v with
  | None => Ret default
  | Some (VStr "stat") => Ret STAT
  | Some (VStr "inventory") => Ret INVENTORY
  | Some (VStr "custom") => Ret CUSTOM
  | Some _ => Raise (ValidationError "component_type")
  end.

Definition parse_opt_str (field : string) (v : option pyval) : outcome (option string) :=
  match v with
  | None | Some VNone => Ret None
  | Some (VStr s) => Ret (Some s)
  | Some _ => Raise (ValidationError field)
  end.

(** [InventoryCellComponent.model_validate(record)] (also the keyword
    constructor): fields validated in declaration order ([component_type],
    [item_id], [quantity], [max_stack_size], [slot_type], [is_equipped]),
    [validation_info.data] holding the fields before the current one; then
    the after-validator [validate_item_id_and_quantity].  Missing fields take
    their defaults, which are not validated. *)
Definition cell_validate (r : record) : outcome InventoryCellComponent :=
  let? ct := parse_component_type INVENTORY (lookup "component_type" r) in
  let data0 := [("component_type", VStr (component_type_value ct))] in
  let? iid := parse_opt_str "item_id" (lookup "item_id" r) in
  let data1 := app data0 [("item_id", opt_str iid)] in
  let? q := match lookup "quantity" r with
            | None => Ret 0
            | Some (VInt q) => if q <? 0 then Raise (ValidationError "quantity")
                               else Ret (validate_quantity q data1)
            | Some _ => Raise (ValidationError "quantity")
            end in
  let? m := match lookup "max_stack_size" r with
            | None => Ret 1
            | Some (VInt m) => if m <? 1 then Raise (ValidationError "max_stack_size")
                               else Ret m
            | Some _ => Raise (ValidationError "max_stack_size")
            end in
  let? st := parse_opt_str "slot_type" (lookup "slot_type" r) in
  let? eq := match lookup "is_equipped" r with
             | None => Ret false
             | Some (VBool b) => Ret b
             | Some _ => Raise (ValidationError "is_equipped")
             end in
  if q >? 0 then
    match iid with
    | None => Raise (ValidationError "Cannot have quantity > 0 without an item_id")
    | Some _ => Ret (mkCell ct iid q m st eq)
    end
  else Ret (mkCell ct None q m st eq).

(** [InventoryCellComponent(max_stack_size=stack_size)]. *)
Definition new_cell (stack_size : Z) : outcome InventoryCellComponent :=
  cell_validate [("max_stack_size", VInt stack_size)].

(** ** InventoryComponent *)

Record InventoryComponent := mkInv {
  inv_component_type : ComponentType;
  cells : list InventoryCellComponent;
  max_cells : Z;
  default_max_stack_size : Z
}.

Definition with_cells (inv : InventoryComponent) (l : list InventoryCellComponent)
    : InventoryComponent :=
  mkInv (inv_component_type inv) l (max_cells inv) (default_max_stack_size inv).

(** The test [not cell.is_empty() and cell.item_id == item_id]. *)
Definition holds (iid : string) (c : InventoryCellComponent) : bool :=
  negb (is_empty c) && item_is (item_id c) iid.

(** First loop of [add_item]: [(cells, remaining, returned_early)]; once
    [remaining_quantity <= 0] the method returns and the later cells are not
    visited. *)
Fixpoint fill_pass (iid : string) (l : list InventoryCellComponent) (rem : Z)
    : list InventoryCellComponent * Z * bool :=
  match l with
  | [] => ([], rem, false)
  | c :: l' =>
      if holds iid c then
        let (c', added) := add_items c iid rem in
        let rem' := rem - added in
        if rem' <=? 0 then (c' :: l', rem', true)
        else let '(l'', r, b) := fill_pass iid l' rem' in (c' :: l'', r, b)
      else let '(l'', r, b) := fill_pass iid l' rem in (c :: l'', r, b)
  end.

(** The [for cell in self.cells: if cell.is_empty(): ... break] search,
    followed by [empty_cell.add_items(item_id, remaining_quantity)] on the
    cell found; [None] when no cell is empty. *)
Fixpoint add_to_first_empty (iid : string) (rem : Z) (l : list InventoryCellComponent)
    : option (list InventoryCellComponent * Z) :=
  match l with
  | [] => None
  | c :: l' =>
      if is_empty c then let (c', added) := add_items c iid rem in Some (c' :: l', added)
      else match add_to_first_empty iid rem l' with
           | Some (l'', added) => Some (c :: l'', added)
           | None => None
           end
  end.

(** The [while remaining_quantity > 0] loop of [add_item]:
    [(cells, remaining, raised)].  On cells satisfying [cell_inv] below every
    iteration that does not [break] adds at least one item, so [fuel =
    remaining] iterations are enough (see [overflow_fuel_enough]). *)
Fixpoint overflow (fuel : nat) (iid : string) (stack_size mc : Z)
    (l : list InventoryCellComponent) (rem : Z)
    : list InventoryCellComponent * Z * option exn :=
  match fuel with
  | O => (l, rem, None)
  | S f =>
      if 0 <? rem then
        match add_to_first_empty iid rem l with
        | Some (l', added) => overflow f iid stack_size mc l' (rem - added)
        | None =>
            if Z.of_nat (List.length l) <? mc then
              match new_cell stack_size with
              | Raise e => (l, rem, Some e)
              | Ret nc =>
                  let (nc', added) := add_items nc iid rem in
                  overflow f iid stack_size mc (app l [nc']) (rem - added)
              end
            else (l, rem, None)
        end
      else (l, rem, None)
  end.

(** [max_stack_size if max_stack_size is not None else self.default_max_stack_size]. *)
Definition stack_size_for (inv : InventoryComponent) (ms : option Z) : Z :=
  match ms with Some m => m | None => default_max_stack_size inv end.

(** [InventoryComponent.add_item]; [ms] is the optional [max_stack_size]. *)
Definition add_item (inv : InventoryComponent) (iid : string) (q : Z) (ms : option Z)
    : InventoryComponent * outcome Z :=
  if q <=? 0 then (inv, Ret 0)
  else
    let '(l1, rem1, early) := fill_pass iid (cells inv) q in
    if early then (with_cells inv l1, Ret q)
    else
      let stack_size := stack_size_for inv ms in
      let '(l2, rem2, err) := overflow (Z.to_nat rem1) iid stack_size (max_cells inv) l1 rem1 in
      match err with
      | Some e => (with_cells inv l2, Raise e)
      | None => (with_cells inv l2, Ret (q - rem2))
      end.

(** Loop of [remove_item]: [(cells, remaining, returned_early)]. *)
Fixpoint remove_pass (iid : string) (l : list InventoryCellComponent) (rem : Z)
    : list InventoryCellComponent * Z * bool :=
  match l with
  | [] => ([], rem, false)
  | c :: l' =>
      if holds iid c then
        let (c', removed) := remove_items c rem in
        let rem' := rem - removed in
        if rem' <=? 0 then (c' :: l', rem', true)
        else let '(l'', r, b) := remove_pass iid l' rem' in (c' :: l'', r, b)
      else let '(l'', r, b) := remove_pass iid l' rem in (c :: l'', r, b)
  end.

(** [InventoryComponent.remove_item]. *)
Definition remove_item (inv : InventoryComponent) (iid : string) (q : Z)
    : InventoryComponent * Z :=
  if q <=? 0 then (inv, 0)
  else
    let '(l, rem, early) := remove_pass iid (cells inv) q in
    (with_cells inv l, if early then q else q - rem).

(** [InventoryComponent.get_item_count]. *)
Fixpoint count_in (iid : string) (l : list InventoryCellComponent) : Z :=
  match l with
  | [] => 0
  | c :: l' => (if holds iid c then quantity c else 0) + count_in iid l'
  end.

Definition get_item_count (inv : InventoryComponent) (iid : string) : Z :=
  count_in iid (cells inv).

(** ** Call sequences on a cell, and the cell invariant *)

Inductive cell_op := OpAdd (iid : string) (n : Z) | OpRemove (n : Z).

Definition cell_step (c : InventoryCellComponent) (op : cell_op) : InventoryCellComponent :=
  match op with
  | OpAdd iid n => fst (add_items c iid n)
  | OpRemove n => fst (remove_items c n)
  end.

(** The states after each call of the sequence. *)
Fixpoint cell_run (c : InventoryCellComponent) (ops : list cell_op)
    : list InventoryCellComponent :=
  match ops with
  | [] => []
  | op :: ops' => let c' := cell_step c op in c' :: cell_run c' ops'
  end.

(** The stacking invariant (with [max_stack_size >= 1], the [ge=1] field
    constraint pydantic enforces). *)
Definition cell_inv (c : InventoryCellComponent) : Prop :=
  1 <= max_stack_size c /\ 0 <= quantity c <= max_stack_size c /\
  (quantity c = 0 <-> item_id c = None).

(** What a cell contributes to [get_item_count]. *)
Definition count1 (iid : string) (c : InventoryCellComponent) : Z :=
  if holds iid c then quantity c else 0.

(** ** Bounded stats: the clamp the spec describes *)

(** Spec-side clamp of [x] to the bounds that are set (upper bound first,
    then the lower one). *)
Definition clamp_spec (lo hi : option Q) (x : Q) : Q :=
  let y := match hi with Some h => if Qle_bool x h then x else h | None => x end in
  match lo with Some l => if Qle_bool l y then y else l | None => y end.

(** How [remove_item] may change the cell at one position. *)
Definition remove_rel (iid : string) (c c' : InventoryCellComponent) : Prop :=
  cell_component_type c' = cell_component_type c /\
  max_stack_size c' = max_stack_size c /\
  slot_type c' = slot_type c /\ is_equipped c' = is_equipped c /\
  (holds iid c = false -> c' = c) /\
  (0 < quantity c -> quantity c' = 0 -> item_id c' = None).

(** How [add_item] may change an existing cell. *)
Definition add_rel (c c' : InventoryCellComponent) : Prop :=
  max_stack_size c' = max_stack_size c /\ (is_empty c = false -> is_empty c' = false).

Definition nonempty (c : InventoryCellComponent) : Prop := is_empty c = false.


(** ** The other methods of the stats collection *)

(** [StatsComponent.reset_all_to_base]: [stat.reset_to_base()] on each stat. *)
Definition reset_all_to_base (sc : StatsComponent) : StatsComponent :=
  with_stats sc (map reset_to_base (stats sc)).

(** [StatsComponent.get_stat_names]. *)
Definition get_stat_names (sc : StatsComponent) : list string :=
  map name (stats sc).

(** [StatsComponent.clear_all_stats]: [self.stats.clear()] empties the list in
    place, without validation. *)
Definition clear_all_stats (sc : StatsComponent) : StatsComponent * Z :=
  let count := Z.of_nat (List.length (stats sc)) in
  (with_stats sc [], count).

(** The bounds of a stat, when both are set, are in order. *)
Definition bounds_ordered (s : StatComponent) : Prop :=
  match min_value s, max_value s with
  | Some m, Some M => (m <= M)%Q
  | _, _ => True
  end.

(** [x] lies within the bounds that are set. *)
Definition in_bounds (lo hi : option Q) (x : Q) : Prop :=
  (match lo with Some m => (m <= x)%Q | None => True end) /\
  (match hi with Some M => (x <= M)%Q | None => True end).

(** ** The other methods of cells and inventories *)

(** [InventoryCellComponent.validate_item_id_and_quantity] (model validator,
    mode after), as it runs after a validated assignment; its own
    [self.item_id = None] re-validates a cell with quantity [<= 0] and no
    item, where it does nothing. *)
Definition validate_item_id_and_quantity (c : InventoryCellComponent)
    : outcome InventoryCellComponent :=
  if quantity c >? 0 then
    match item_id c with
    | None => Raise (ValidationError "Cannot have quantity > 0 without an item_id")
    | Some _ => Ret c
    end
  else
    match item_id c with
    | Some _ => Ret (mkCell (cell_component_type c) None (quantity c) (max_stack_size c)
                       (slot_type c) (is_equipped c))
    | None => Ret c
    end.

(** Assignment [cell.quantity = v] under [validate_assignment=True]: the
    [ge=0] constraint, then [validate_quantity] with the other fields of the
    cell as [validation_info.data], then the after-validator. *)
Definition assign_quantity (c : InventoryCellComponent) (v : Z) : outcome InventoryCellComponent :=
  if v <? 0 then Raise (ValidationError "quantity")
  else
    let q := validate_quantity v (remove_key "quantity" (cell_dump c)) in
    validate_item_id_and_quantity
      (mkCell (cell_component_type c) (item_id c) q (max_stack_size c) (slot_type c) (is_equipped c)).

(** Assignment [cell.item_id = v]. *)
Definition assign_item_id (c : InventoryCellComponent) (v : option string)
    : outcome InventoryCellComponent :=
  validate_item_id_and_quantity
    (mkCell (cell_component_type c) v (quantity c) (max_stack_size c) (slot_type c) (is_equipped c)).

(** [InventoryCellComponent.clear_slot]; a failed assignment leaves the cell
    as it was before that assignment. *)
Definition clear_slot (c : InventoryCellComponent) : InventoryCellComponent * outcome Z :=
  let previous_quantity := quantity c in
  match assign_quantity c 0 with
  | Raise e => (c, Raise e)
  | Ret c1 =>
      match assign_item_id c1 None with
      | Raise e => (c1, Raise e)
      | Ret c2 => (c2, Ret previous_quantity)
      end
  end.

(** [InventoryComponent.validate_cells_count] (model validator, mode after). *)
Definition validate_cells_count (inv : InventoryComponent) : InventoryComponent :=
  if max_cells inv <? Z.of_nat (List.length (cells inv))
  then with_cells inv (firstn (Z.to_nat (max_cells inv)) (cells inv))
  else inv.

(** The loop of [InventoryComponent.has_item]; [total] is [total_quantity]. *)
Fixpoint has_item_loop (iid : string) (q total : Z) (l : list InventoryCellComponent) : bool :=
  match l with
  | [] => false
  | c :: l' =>
      if holds iid c then
        let total' := total + quantity c in
        if total' >=? q then true else has_item_loop iid q total' l'
      else has_item_loop iid q total l'
  end.

(** [InventoryComponent.has_item]. *)
Definition has_item (inv : InventoryComponent) (iid : string) (q : Z) : bool :=
  if q <=? 0 then true else has_item_loop iid q 0 (cells inv).

(** [InventoryComponent.get_empty_cells_count]. *)
Definition get_empty_cells_count (inv : InventoryComponent) : Z :=
  Z.of_nat (List.length (filter is_empty (cells inv))).

(** [InventoryComponent.is_full] (named apart from the cell method
    [is_full]). *)
Definition inventory_is_full (inv : InventoryComponent) : bool :=
  if Z.of_nat (List.length (cells inv)) <? max_cells inv then false
  else forallb is_full (cells inv).

(** The loop of [InventoryComponent.clear_all]: an exception stops it, and
    the cells cleared before it stay cleared. *)
Fixpoint clear_cells (l : list InventoryCellComponent)
    : list InventoryCellComponent * option exn :=
  match l with
  | [] => ([], None)
  | c :: l' =>
      match clear_slot c with
      | (c', Raise e) => (c' :: l', Some e)
      | (c', Ret _) => let (l'', e) := clear_cells l' in (c' :: l'', e)
      end
  end.

(** [InventoryComponent.clear_all]. *)
Definition clear_all (inv : InventoryComponent) : InventoryComponent * outcome unit :=
  let (l, e) := clear_cells (cells inv) in
  (with_cells inv l, match e with Some e => Raise e | None => Ret tt end).

(** An empty inventory of two slots with stacks of five. *)
Definition inv_two_slots : InventoryComponent := mkInv INVENTORY [] 2 5.

(** The same inventory holding three potions in its first slot. *)
Definition inv_three_potions : InventoryComponent :=
  mkInv INVENTORY [mkCell INVENTORY (Some "potion") 3 5 None false] 2 5.

(** * Proofs *)

Ltac splits :=
  repeat match goal with
         | |- _ /\ _ => split
         | |- _ <-> _ => split
         | |- _ -> _ => intro
         | |- cell_inv _ => unfold cell_inv
         | |- remove_rel _ _ _ => unfold remove_rel
         end.

Lemma is_empty_inv : forall c, cell_inv c -> (is_empty c = true <-> quantity c = 0).
Proof.
  intros c (Hm & Hq & Hid). unfold is_empty. split.
  - intros H. apply orb_true_iff in H as [H | H].
    + now apply Z.eqb_eq.
    + destruct (item_id c) eqn:E; [discriminate | now apply Hid].
  - intros H. rewrite H. reflexivity.
Qed.

Lemma item_is_refl : forall s, item_is (Some s) s = true.
Proof. intros s. simpl. apply String.eqb_refl. Qed.

Lemma add_items_spec : forall c iid n, cell_inv c ->
  let (c', a) := add_items c iid n in
  cell_inv c' /\ max_stack_size c' = max_stack_size c /\ 0 <= a /\
  (0 < n -> a <= n) /\
  (is_empty c = false -> is_empty c' = false) /\
  (is_empty c = true -> 0 < n -> 1 <= a /\ is_empty c' = false) /\
  count1 iid c' = count1 iid c + a.
Proof.
  intros c iid n Hinv. pose proof (is_empty_inv c Hinv) as He.
  destruct Hinv as (Hm & Hq & Hid). unfold add_items.
  destruct (n <=? 0) eqn:Hn.
  { apply Z.leb_le in Hn. splits; try lia; try apply Hid; auto. }
  apply Z.leb_gt in Hn.
  destruct (negb (is_empty c) && negb (item_is (item_id c) iid)) eqn:Hd.
  { splits; try lia; try apply Hid; auto.
    all: rewrite H in Hd; simpl in Hd; discriminate. }
  assert (Hcase : is_empty c = true \/ (is_empty c = false /\ item_id c = Some iid)).
  { destruct (is_empty c) eqn:E; [now left | right]. split; [reflexivity|].
    simpl in Hd. destruct (item_id c) as [s|] eqn:Ei; simpl in Hd.
    - destruct (String.eqb s iid) eqn:Es; [now apply String.eqb_eq in Es; subst | discriminate].
    - discriminate. }
  unfold count1, holds, is_empty; simpl. rewrite String.eqb_refl.
  destruct Hcase as [E | [E Ei]].
  - assert (Hq0 : quantity c = 0) by (now apply He). rewrite Hq0.
    assert (Hmin : 1 <= Z.min n (max_stack_size c - 0)) by lia.
    replace (0 + Z.min n (max_stack_size c - 0) =? 0) with false by (symmetry; apply Z.eqb_neq; lia).
    simpl. splits; simpl in *; try lia; try discriminate; reflexivity.
  - destruct (quantity c =? 0) eqn:Eq0; [apply Z.eqb_eq in Eq0; exfalso;
      assert (item_id c = None) by (now apply Hid); congruence |].
    apply Z.eqb_neq in Eq0.
    replace (quantity c + Z.min n (max_stack_size c - quantity c) =? 0) with false
      by (symmetry; apply Z.eqb_neq; lia).
    rewrite Ei. simpl. rewrite String.eqb_refl.
    splits; simpl in *; try lia; try discriminate; reflexivity.
Qed.

Lemma remove_items_spec : forall c n, cell_inv c -> cell_inv (fst (remove_items c n)).
Proof.
  intros c n Hinv. pose proof (is_empty_inv c Hinv) as He.
  destruct Hinv as (Hm & Hq & Hid). unfold remove_items.
  destruct ((n <=? 0) || is_empty c) eqn:Hd; [exact (conj Hm (conj Hq Hid))|].
  apply orb_false_iff in Hd as [Hn He0]. apply Z.leb_gt in Hn.
  assert (Hq0 : quantity c <> 0) by (intros H; apply He in H; congruence).
  simpl. destruct (quantity c - Z.min n (quantity c) =? 0) eqn:E.
  - apply Z.eqb_eq in E. splits; simpl in *; try lia; reflexivity.
  - apply Z.eqb_neq in E. splits; simpl in *; try lia.
    exfalso. apply Hq0. apply Hid. exact H.
Qed.

Lemma cell_step_inv : forall c op, cell_inv c -> cell_inv (cell_step c op).
Proof.
  intros c [iid n | n] H; simpl.
  - pose proof (add_items_spec c iid n H) as S.
    destruct (add_items c iid n) as [c' a]. simpl. tauto.
  - now apply remove_items_spec.
Qed.

Lemma validate_quantity_early : forall q ct iid,
  validate_quantity q [("component_type", VStr (component_type_value ct)); ("item_id", opt_str iid)]
  = if q >? 1 then 1 else q.
Proof. intros q ct iid. destruct ct; reflexivity. Qed.

(** Every cell pydantic builds (constructor or [model_validate]) satisfies the
    invariant. *)
Lemma cell_validate_inv : forall r c, cell_validate r = Ret c -> cell_inv c.
Proof.
  intros r c H. unfold cell_validate in H.
  destruct (parse_component_type INVENTORY (lookup "component_type" r)) as [ct|e];
    [|discriminate].
  destruct (parse_opt_str "item_id" (lookup "item_id" r)) as [iid|e]; [|discriminate].
  simpl app in H.
  destruct (match lookup "quantity" r with
            | None => Ret 0
            | Some (VInt q) => if q <? 0 then Raise (ValidationError "quantity")
                               else Ret (validate_quantity q
                                 [("component_type", VStr (component_type_value ct));
                                  ("item_id", opt_str iid)])
            | Some _ => Raise (ValidationError "quantity")
            end) as [q|e] eqn:Eq; [|discriminate].
  assert (Hq : 0 <= q <= 1).
  { destruct (lookup "quantity" r) as [v|]; [|injection Eq; lia].
    destruct v; try discriminate.
    destruct (z <? 0) eqn:Ez; [discriminate|]. apply Z.ltb_ge in Ez.
    injection Eq as <-. rewrite validate_quantity_early.
    destruct (z >? 1) eqn:E1; [lia|]. rewrite Z.gtb_ltb in E1. apply Z.ltb_ge in E1. lia. }
  clear Eq.
  destruct (match lookup "max_stack_size" r with
            | None => Ret 1
            | Some (VInt m) => if m <? 1 then Raise (ValidationError "max_stack_size")
                               else Ret m
            | Some _ => Raise (ValidationError "max_stack_size")
            end) as [m|e] eqn:Em; [|discriminate].
  assert (Hm : 1 <= m).
  { destruct (lookup "max_stack_size" r) as [v|]; [|injection Em; lia].
    destruct v; try discriminate.
    destruct (z <? 1) eqn:Ez; [discriminate|]. apply Z.ltb_ge in Ez.
    injection Em as <-. lia. }
  clear Em.
  destruct (parse_opt_str "slot_type" (lookup "slot_type" r)) as [st|e]; [|discriminate].
  destruct (match lookup "is_equipped" r with
            | None => Ret false
            | Some (VBool b) => Ret b
            | Some _ => Raise (ValidationError "is_equipped")
            end) as [eq|e]; [|discriminate].
  destruct (q >? 0) eqn:Eq0.
  - apply Z.gtb_lt in Eq0. destruct iid as [s|]; [|discriminate].
    injection H as <-. splits; simpl in *; try lia; discriminate.
  - rewrite Z.gtb_ltb in Eq0. apply Z.ltb_ge in Eq0.
    injection H as <-. splits; simpl in *; try lia; reflexivity.
Qed.

Lemma cell_run_inv : forall ops c, cell_inv c -> Forall cell_inv (cell_run c ops).
Proof.
  induction ops as [|op ops IH]; intros c H; simpl; constructor.
  - now apply cell_step_inv.
  - apply IH. now apply cell_step_inv.
Qed.

(** Claim C3: every cell pydantic builds satisfies [0 <= quantity <=
    max_stack_size] and [quantity = 0 <-> item_id = None], and from any cell
    satisfying it every finite sequence of [add_items] / [remove_items] calls
    keeps it after each call. *)
Theorem cell_invariant_preserved :
  (forall r c, cell_validate r = Ret c -> cell_inv c) /\
  (forall c ops, cell_inv c -> Forall cell_inv (cell_run c ops)).
Proof. split; [exact cell_validate_inv | intros c ops; exact (cell_run_inv ops c)]. Qed.

Definition cell5 : InventoryCellComponent := mkCell INVENTORY None 0 5 None false.

Lemma cell_invariant_preserved_witness :
  cell_validate [("max_stack_size", VInt 5)] = Ret cell5 /\
  Forall cell_inv (cell_run cell5 [OpAdd "potion" 3; OpAdd "potion" 5; OpRemove 8]).
Proof.
  split; [reflexivity|].
  apply (proj2 cell_invariant_preserved).
  apply (proj1 cell_invariant_preserved [("max_stack_size", VInt 5)]). reflexivity.
Defined.

(** ** Stats *)

Lemma stat_data_bounds : forall s k,
  get_float "min_value" (remove_key k (stat_data s)) =
    (if String.eqb k "min_value" then None else min_value s) /\
  get_float "max_value" (remove_key k (stat_data s)) =
    (if String.eqb k "max_value" then None else max_value s).
Proof.
  intros s k. unfold remove_key, stat_data, get_float. simpl.
  destruct (String.eqb k "component_type") eqn:E1;
  destruct (String.eqb k "name") eqn:E2;
  destruct (String.eqb k "base_value") eqn:E3;
  destruct (String.eqb k "current_value") eqn:E4;
  destruct (String.eqb k "min_value") eqn:E5;
  destruct (String.eqb k "max_value") eqn:E6;
  destruct (String.eqb k "description") eqn:E7;
  repeat match goal with H : String.eqb _ _ = true |- _ => apply String.eqb_eq in H; subst end;
  try discriminate; simpl;
  destruct (min_value s), (max_value s); split; reflexivity.
Qed.

Lemma get_float_current : forall s,
  get_float "min_value" (remove_key "current_value" (stat_data s)) = min_value s /\
  get_float "max_value" (remove_key "current_value" (stat_data s)) = max_value s.
Proof. intros s. exact (stat_data_bounds s "current_value"). Qed.

Ltac qle_cases :=
  repeat match goal with
  | |- context [Qle_bool ?a ?b] =>
      lazymatch a with context [if _ then _ else _] => fail | _ =>
      lazymatch b with context [if _ then _ else _] => fail | _ =>
        let E := fresh "E" in destruct (Qle_bool a b) eqn:E; simpl
      end end
  end;
  repeat match goal with
  | H : Qle_bool _ _ = true |- _ => apply Qle_bool_iff in H
  | H : Qle_bool ?a ?b = false |- _ =>
      assert (~ (a <= b)%Q) by (intro; rewrite <- Qle_bool_iff in *; congruence); clear H
  end.

(** Claim C6: [modify_value delta] stores and returns the clamp of
    [current_value + delta] to the bounds that are set, and changes no other
    field ([base_value] in particular). *)
Theorem modify_value_clamps : forall s delta,
  let (s', r) := modify_value s delta in
  r = clamp_spec (min_value s) (max_value s) (current_value s + delta)%Q /\
  s' = mkStat (stat_component_type s) (name s) (base_value s) r (min_value s)
         (max_value s) (description s).
Proof.
  intros s delta. destruct (get_float_current s) as [E1 E2].
  unfold modify_value, set_current, validate_current_value. rewrite E1, E2. simpl.
  split; [|reflexivity].
  unfold clamp_spec, qgt, qlt.
  destruct (min_value s) as [l|], (max_value s) as [h|]; simpl;
  qle_cases; try reflexivity; exfalso; lra.
Qed.

Lemma modify_value_scenario :
  modify_value (StatComponent_new "hp" (Some 10%Q) None (Some 0%Q) (Some 100%Q) "") (-50)%Q =
  (mkStat STAT "hp" 10 0 (Some 0%Q) (Some 100%Q) "", 0%Q).
Proof. reflexivity. Qed.

(** Claim C1 (code bug): [StatComponent(name="hp", base_value=150,
    max_value=100)] keeps [base_value = current_value = 150 > max_value]:
    the field validators of [base_value] and [current_value] run before
    [max_value] is in [validation_info.data]. *)
Theorem stat_construction_skips_clamp :
  let s := StatComponent_new "hp" (Some 150%Q) None None (Some 100%Q) "" in
  max_value s = Some 100%Q /\ base_value s = 150%Q /\ current_value s = 150%Q /\
  (100 < base_value s)%Q /\ (100 < current_value s)%Q.
Proof. simpl. repeat split; reflexivity. Qed.

Lemma update_stat_absent : forall {A} nm (f : StatComponent -> StatComponent * A) l,
  get_stat_list nm l = None -> update_stat nm f l = (l, None).
Proof.
  intros A nm f l. induction l as [|s l IH]; simpl; [reflexivity|].
  destruct (String.eqb (name s) nm); [discriminate|].
  intros H. rewrite (IH H). reflexivity.
Qed.

Lemma remove_first_absent : forall nm l,
  get_stat_list nm l = None -> remove_first nm l = (l, false).
Proof.
  intros nm l. induction l as [|s l IH]; simpl; [reflexivity|].
  destruct (String.eqb (name s) nm); [discriminate|].
  intros H. rewrite (IH H). reflexivity.
Qed.

Lemma remove_first_present : forall nm l s,
  get_stat_list nm l = Some s ->
  snd (remove_first nm l) = true /\
  S (List.length (fst (remove_first nm l))) = List.length l.
Proof.
  intros nm l. induction l as [|s0 l IH]; intros s; simpl; [discriminate|].
  destruct (String.eqb (name s0) nm); [split; reflexivity|].
  intros H. specialize (IH s H). destruct (remove_first nm l) as [l' b].
  simpl in *. destruct IH as [-> <-]. split; reflexivity.
Qed.

Lemma with_stats_same : forall sc, with_stats sc (stats sc) = sc.
Proof. intros [t l m]. reflexivity. Qed.

(** Claim C8: for a name with no stat, [modify_stat], [set_stat_base_value]
    and [set_stat_current_value] return [None], [reset_stat_to_base] and
    [remove_stat] return [False]; all are total functions (nothing is
    raised) and the collection is left as it was. *)
Theorem absent_name_not_found : forall sc nm delta v,
  get_stat sc nm = None ->
  modify_stat sc nm delta = (sc, None) /\
  set_stat_base_value sc nm v = (sc, None) /\
  set_stat_current_value sc nm v = (sc, None) /\
  reset_stat_to_base sc nm = (sc, false) /\
  remove_stat sc nm = (sc, false).
Proof.
  intros sc nm delta v H. unfold get_stat in H.
  unfold modify_stat, set_stat_base_value, set_stat_current_value,
    reset_stat_to_base, remove_stat.
  rewrite !(update_stat_absent _ _ _ H), (remove_first_absent _ _ H), with_stats_same.
  repeat split.
Qed.

Definition stats_str_dex : StatsComponent :=
  mkStats STAT [StatComponent_new "str" (Some 10%Q) None None None "";
                StatComponent_new "dex" (Some 10%Q) None None None ""] (Some 2).

Lemma absent_name_not_found_witness :
  get_stat stats_str_dex "int" = None /\
  reset_stat_to_base stats_str_dex "int" = (stats_str_dex, false).
Proof.
  split; [reflexivity|].
  exact (proj1 (proj2 (proj2 (proj2
    (absent_name_not_found stats_str_dex "int" 1%Q 1%Q eq_refl))))).
Defined.

(** The capacity invariant [len(stats) <= max_stats] that
    [validate_stats_count] and [add_stat] maintain. *)
Definition stats_within_capacity (sc : StatsComponent) : Prop :=
  forall m, max_stats sc = Some m -> Z.of_nat (List.length (stats sc)) <= m.

(** Claim C9: [add_stat] with [replace_if_exists=True] on a present name
    deletes the first stat with that name and appends the new stat at the
    end, and on a collection within capacity it does not raise the
    capacity error, even when the collection is full. *)
Theorem add_stat_replace_moves_last : forall sc nm base cur minv maxv desc,
  get_stat sc nm <> None -> stats_within_capacity sc ->
  let s := StatComponent_new nm (Some base) cur minv maxv desc in
  add_stat sc nm base cur minv maxv desc true =
    (with_stats sc (app (fst (remove_first nm (stats sc))) [s]), Ret s).
Proof.
  intros sc nm base cur minv maxv desc Hp Hcap s.
  unfold add_stat. destruct (get_stat sc nm) as [s0|] eqn:E; [|congruence].
  unfold get_stat in E. destruct (remove_first_present _ _ _ E) as [_ Hlen].
  unfold remove_stat. destruct (remove_first nm (stats sc)) as [l b] eqn:Er.
  simpl in *. destruct (max_stats sc) as [m|] eqn:Em; [|reflexivity].
  specialize (Hcap m Em).
  destruct (m <=? Z.of_nat (List.length l)) eqn:Ec; [|reflexivity].
  apply Z.leb_le in Ec. rewrite <- Hlen in Hcap. lia.
Qed.

Lemma add_stat_replace_moves_last_witness :
  get_stat stats_str_dex "str" <> None /\ stats_within_capacity stats_str_dex /\
  add_stat stats_str_dex "str" 12%Q None None None "" true =
    (mkStats STAT [StatComponent_new "dex" (Some 10%Q) None None None "";
                   StatComponent_new "str" (Some 12%Q) None None None ""] (Some 2),
     Ret (StatComponent_new "str" (Some 12%Q) None None None "")).
Proof.
  assert (H1 : get_stat stats_str_dex "str" <> None) by discriminate.
  assert (H2 : stats_within_capacity stats_str_dex).
  { intros m Hm. injection Hm as <-. simpl. lia. }
  split; [exact H1|]. split; [exact H2|].
  exact (add_stat_replace_moves_last stats_str_dex "str" 12%Q None None None "" H1 H2).
Defined.

(** Claim C5 (counterexample): on the full collection [str], [dex] with
    [max_stats = 2], [add_stat("int", ...)] raises, but a [ValueError], not a
    [CapacityExceededError]. *)
Lemma add_stat_full_raises_ValueError :
  ~ (exists sc' msg, add_stat stats_str_dex "int" 10%Q None None None "" false =
                       (sc', Raise (mkExn "CapacityExceededError" msg))).
Proof.
  intros (sc' & msg & H).
  assert (E : add_stat stats_str_dex "int" 10%Q None None None "" false =
              (stats_str_dex, Raise (ValueError (capacity_msg 2)))) by reflexivity.
  rewrite E in H. injection H as _ H. discriminate H.
Qed.

(** Claim C5, as the code does it: [add_stat] raises [ValueError] with the
    message "Stat with name '<name>' already exists. ..." when the name is
    present and [replace_if_exists] is false, and [ValueError] with the message
    "Cannot add stat: maximum number of stats (<max_stats>) reached" when the
    name is absent and [len(stats) >= max_stats]; on a collection within
    capacity every call that raises leaves the collection unchanged. *)
Theorem add_stat_errors : forall sc nm base cur minv maxv desc rep,
  (get_stat sc nm <> None -> rep = false ->
     add_stat sc nm base cur minv maxv desc rep = (sc, Raise (ValueError (duplicate_msg nm)))) /\
  (get_stat sc nm = None -> forall m, max_stats sc = Some m ->
     m <= Z.of_nat (List.length (stats sc)) ->
     add_stat sc nm base cur minv maxv desc rep = (sc, Raise (ValueError (capacity_msg m)))) /\
  (stats_within_capacity sc -> forall sc' e,
     add_stat sc nm base cur minv maxv desc rep = (sc', Raise e) -> sc' = sc).
Proof.
  intros sc nm base cur minv maxv desc rep. unfold add_stat. splits.
  - destruct (get_stat sc nm); [|congruence]. subst rep. reflexivity.
  - rewrite H. rewrite H0. apply Z.leb_le in H1. rewrite H1. reflexivity.
  - destruct (get_stat sc nm) as [s0|] eqn:E.
    + destruct rep.
      * unfold get_stat in E. destruct (remove_first_present _ _ _ E) as [_ Hlen].
        unfold remove_stat in H0. destruct (remove_first nm (stats sc)) as [l b].
        simpl in *. destruct (max_stats sc) as [m|] eqn:Em; [|discriminate].
        specialize (H m Em).
        destruct (m <=? Z.of_nat (List.length l)) eqn:Ec; [|discriminate].
        apply Z.leb_le in Ec. rewrite <- Hlen in H. lia.
      * injection H0 as <- _. reflexivity.
    + simpl in H0. destruct (max_stats sc) as [m|];
        [destruct (m <=? Z.of_nat (List.length (stats sc)))|]; congruence.
Qed.

Lemma add_stat_errors_witness :
  get_stat stats_str_dex "int" = None /\
  add_stat stats_str_dex "int" 10%Q None None None "" false =
    (stats_str_dex, Raise (ValueError (capacity_msg 2))).
Proof.
  split; [reflexivity|].
  apply (proj1 (proj2 (add_stat_errors stats_str_dex "int" 10%Q None None None "" false))
           eq_refl 2 eq_refl).
  simpl. lia.
Defined.

(** ** Serialization of a cell *)

(** Claim C4 (code bug): the cell [add_items("potion", 3)] makes of an empty
    cell with [max_stack_size = 5] dumps to a record whose [model_validate]
    has [quantity = 1]: [validate_quantity] runs before [max_stack_size] is
    in [validation_info.data] and clamps to the default 1. *)
Theorem cell_roundtrip_loses_quantity :
  let c := fst (add_items cell5 "potion" 3) in
  c = mkCell INVENTORY (Some "potion") 3 5 None false /\
  cell_validate (cell_dump c) = Ret (mkCell INVENTORY (Some "potion") 1 5 None false) /\
  cell_validate (cell_dump c) <> Ret c.
Proof.
  simpl. split; [reflexivity|]. split; [reflexivity|].
  vm_compute. intros H. injection H as H. discriminate H.
Qed.

(** ** remove_item keeps the cells in place *)

Lemma remove_items_rel : forall iid c n,
  holds iid c = true -> remove_rel iid c (fst (remove_items c n)).
Proof.
  intros iid c n Hh. unfold remove_items.
  destruct ((n <=? 0) || is_empty c) eqn:Hd.
  - simpl. splits; try reflexivity. lia.
  - simpl. destruct (quantity c - Z.min n (quantity c) =? 0) eqn:E.
    + splits; try reflexivity; congruence.
    + apply Z.eqb_neq in E. splits; try reflexivity; simpl in *; try lia; congruence.
Qed.

Lemma remove_rel_refl : forall iid c, remove_rel iid c c.
Proof. intros iid c. splits; try reflexivity. lia. Qed.

Lemma remove_pass_frame : forall iid l rem,
  Forall2 (remove_rel iid) l (fst (fst (remove_pass iid l rem))).
Proof.
  intros iid l. induction l as [|c l IH]; intros rem; simpl; [constructor|].
  destruct (holds iid c) eqn:Eh.
  - pose proof (remove_items_rel iid c rem Eh) as Hr.
    destruct (remove_items c rem) as [c' removed]. simpl in Hr.
    destruct (rem - removed <=? 0).
    + simpl. constructor; [exact Hr|]. clear. induction l; constructor; auto.
      apply remove_rel_refl.
    + specialize (IH (rem - removed)).
      destruct (remove_pass iid l (rem - removed)) as [[l'' r] b]. simpl in *.
      constructor; assumption.
  - specialize (IH rem). destruct (remove_pass iid l rem) as [[l'' r] b]. simpl in *.
    constructor; [apply remove_rel_refl | assumption].
Qed.

(** Claim C10: [remove_item] keeps the number of cells and each cell at its
    position: a cell not holding the item is untouched, the others keep every
    field but [item_id] and [quantity], and one whose quantity drops to zero
    is left in place as an empty cell ([item_id = None], [quantity = 0]). *)
Theorem remove_item_keeps_cells : forall inv iid q,
  let (inv', _) := remove_item inv iid q in
  List.length (cells inv') = List.length (cells inv) /\
  Forall2 (remove_rel iid) (cells inv) (cells inv') /\
  max_cells inv' = max_cells inv /\
  default_max_stack_size inv' = default_max_stack_size inv.
Proof.
  intros inv iid q. unfold remove_item.
  destruct (q <=? 0).
  - splits; try reflexivity. destruct inv as [t l m d]; simpl. clear.
    induction l; constructor; auto. apply remove_rel_refl.
  - pose proof (remove_pass_frame iid (cells inv) q) as H.
    destruct (remove_pass iid (cells inv) q) as [[l r] b]. simpl in *.
    splits; try reflexivity; [|exact H].
    symmetry. eapply Forall2_length. exact H.
Qed.

Lemma remove_item_scenario :
  remove_item (mkInv INVENTORY [mkCell INVENTORY (Some "sword") 1 1 None false] 10 1) "sword" 1 =
  (mkInv INVENTORY [mkCell INVENTORY None 0 1 None false] 10 1, 1).
Proof. reflexivity. Qed.

(** ** add_item *)

Lemma count_in_cons : forall iid c l, count_in iid (c :: l) = count1 iid c + count_in iid l.
Proof. reflexivity. Qed.

Lemma count_in_app : forall iid l1 l2, count_in iid (app l1 l2) = count_in iid l1 + count_in iid l2.
Proof. intros iid l1 l2. induction l1 as [|c l1 IH]; simpl; [reflexivity|]. rewrite IH. lia. Qed.

Lemma add_rel_refl : forall c, add_rel c c.
Proof. intros c. split; auto. Qed.

Lemma add_rel_trans : forall a b c, add_rel a b -> add_rel b c -> add_rel a c.
Proof. intros a b c [H1 H2] [H3 H4]. split; [congruence | auto]. Qed.

Lemma Forall2_add_rel_refl : forall l, Forall2 add_rel l l.
Proof. induction l; constructor; auto using add_rel_refl. Qed.

Lemma Forall2_add_rel_trans : forall l1 l2 l3,
  Forall2 add_rel l1 l2 -> Forall2 add_rel l2 l3 -> Forall2 add_rel l1 l3.
Proof.
  intros l1 l2 l3 H. revert l3. induction H; intros l3 H'; inversion H'; subst;
    constructor; eauto using add_rel_trans.
Qed.

Lemma Forall2_add_rel_nonempty : forall l l',
  Forall2 add_rel l l' -> Forall nonempty l -> Forall nonempty l'.
Proof.
  intros l l' H. induction H; intros Hn; inversion Hn; subst; constructor; auto.
  apply H; assumption.
Qed.

Lemma add_items_facts : forall c iid n, cell_inv c ->
  cell_inv (fst (add_items c iid n)) /\ add_rel c (fst (add_items c iid n)) /\
  0 <= snd (add_items c iid n) /\ (0 < n -> snd (add_items c iid n) <= n) /\
  (is_empty c = true -> 0 < n -> 1 <= snd (add_items c iid n) /\
                                 is_empty (fst (add_items c iid n)) = false) /\
  count1 iid (fst (add_items c iid n)) = count1 iid c + snd (add_items c iid n).
Proof.
  intros c iid n H. pose proof (add_items_spec c iid n H) as S.
  destruct (add_items c iid n) as [c' a]. simpl.
  destruct S as (S1 & S2 & S3 & S4 & S5 & S6 & S7).
  split; [exact S1|]. split; [split; assumption|]. auto.
Qed.

Lemma fill_pass_spec : forall iid l rem, Forall cell_inv l -> 0 < rem ->
  let '(l', r, b) := fill_pass iid l rem in
  Forall cell_inv l' /\ Forall2 add_rel l l' /\
  count_in iid l' = count_in iid l + (rem - r) /\ 0 <= r <= rem /\
  (b = true -> r = 0) /\ (b = false -> 0 < r).
Proof.
  intros iid l. induction l as [|c l IH]; intros rem Hl Hr; cbn [fill_pass].
  { splits; try constructor; try lia; discriminate. }
  inversion Hl as [|? ? Hc Hl']; subst.
  destruct (holds iid c) eqn:Eh.
  - destruct (add_items_facts c iid rem Hc) as (F1 & F2 & F3 & F4 & F5 & F6).
    destruct (add_items c iid rem) as [c' a]. simpl in *.
    specialize (F4 Hr).
    destruct (rem - a <=? 0) eqn:Ea.
    + apply Z.leb_le in Ea. cbn [count_in]; unfold count1 in *.
      splits; try constructor; auto using Forall2_add_rel_refl; try lia; discriminate.
    + apply Z.leb_gt in Ea. specialize (IH (rem - a) Hl' Ea).
      destruct (fill_pass iid l (rem - a)) as [[l'' r] b].
      destruct IH as (I1 & I2 & I3 & I4 & I5 & I6).
      cbn [count_in]; unfold count1 in *; rewrite I3.
      splits; try constructor; auto; lia.
  - specialize (IH rem Hl' Hr).
    destruct (fill_pass iid l rem) as [[l'' r] b].
    destruct IH as (I1 & I2 & I3 & I4 & I5 & I6).
    cbn [count_in]; rewrite I3.
    splits; try constructor; auto using add_rel_refl; lia.
Qed.

Lemma add_to_first_empty_some : forall iid rem l l' a,
  Forall cell_inv l -> 0 < rem -> add_to_first_empty iid rem l = Some (l', a) ->
  Forall cell_inv l' /\ Forall2 add_rel l l' /\
  count_in iid l' = count_in iid l + a /\ 1 <= a <= rem.
Proof.
  intros iid rem l. induction l as [|c l IH]; intros l' a Hl Hr H; simpl in H;
    [discriminate|].
  inversion Hl as [|? ? Hc Hl']; subst.
  destruct (is_empty c) eqn:Ee.
  - destruct (add_items_facts c iid rem Hc) as (F1 & F2 & F3 & F4 & F5 & F6).
    destruct (add_items c iid rem) as [c' a']. simpl in *.
    injection H as <- <-. destruct (F5 Ee Hr) as [F7 _]. specialize (F4 Hr).
    cbn [count_in]; unfold count1 in *.
    splits; try constructor; auto using Forall2_add_rel_refl; lia.
  - destruct (add_to_first_empty iid rem l) as [[l'' a']|] eqn:E; [|discriminate].
    injection H as <- <-.
    destruct (IH l'' a' Hl' Hr eq_refl) as (I1 & I2 & I3 & I4).
    cbn [count_in]; rewrite I3.
    splits; try constructor; auto using add_rel_refl; lia.
Qed.

Lemma add_to_first_empty_none : forall iid rem l,
  add_to_first_empty iid rem l = None -> Forall nonempty l.
Proof.
  intros iid rem l. induction l as [|c l IH]; simpl; intros H; [constructor|].
  destruct (is_empty c) eqn:Ee.
  - destruct (add_items c iid rem). discriminate.
  - destruct (add_to_first_empty iid rem l) as [[]|]; [discriminate|].
    constructor; [exact Ee | auto].
Qed.

Lemma new_cell_spec : forall ss nc, new_cell ss = Ret nc ->
  cell_inv nc /\ max_stack_size nc = ss /\ is_empty nc = true.
Proof.
  intros ss nc H. pose proof (cell_validate_inv _ _ H) as Hi.
  unfold new_cell, cell_validate in H. simpl in H.
  destruct (ss <? 1); [discriminate|]. simpl in H. injection H as <-.
  split; [exact Hi|]. split; reflexivity.
Qed.

Lemma overflow_S : forall f iid ss mc l rem,
  overflow (S f) iid ss mc l rem =
  if 0 <? rem then
    match add_to_first_empty iid rem l with
    | Some (l', added) => overflow f iid ss mc l' (rem - added)
    | None =>
        if Z.of_nat (List.length l) <? mc then
          match new_cell ss with
          | Raise e => (l, rem, Some e)
          | Ret nc =>
              let (nc', added) := add_items nc iid rem in
              overflow f iid ss mc (app l [nc']) (rem - added)
          end
        else (l, rem, None)
    end
  else (l, rem, None).
Proof. reflexivity. Qed.

Lemma new_cell_fill : forall ss nc iid rem, new_cell ss = Ret nc -> 0 < rem ->
  cell_inv (fst (add_items nc iid rem)) /\ add_rel nc (fst (add_items nc iid rem)) /\
  max_stack_size nc = ss /\
  1 <= snd (add_items nc iid rem) <= rem /\
  nonempty (fst (add_items nc iid rem)) /\
  count1 iid (fst (add_items nc iid rem)) = snd (add_items nc iid rem).
Proof.
  intros ss nc iid rem H Hr. destruct (new_cell_spec ss nc H) as (N1 & N2 & N3).
  destruct (add_items_facts nc iid rem N1) as (F1 & F2 & F3 & F4 & F5 & F6).
  destruct (F5 N3 Hr) as [F7 F8]. specialize (F4 Hr).
  assert (Hc0 : count1 iid nc = 0) by (unfold count1, holds; rewrite N3; reflexivity).
  refine (conj F1 (conj F2 (conj N2 _))). splits; auto; lia.
Qed.

(** The [fuel] of [overflow] is never what stops the loop: with at least
    [remaining] iterations left, one more changes nothing. *)
Lemma overflow_fuel_enough : forall n iid ss mc l rem,
  Forall cell_inv l -> (Z.to_nat rem <= n)%nat ->
  overflow n iid ss mc l rem = overflow (S n) iid ss mc l rem.
Proof.
  induction n as [|n IH]; intros iid ss mc l rem Hl Hn.
  - rewrite overflow_S. replace (0 <? rem) with false by (symmetry; apply Z.ltb_ge; lia).
    reflexivity.
  - rewrite (overflow_S n), (overflow_S (S n)).
    destruct (0 <? rem) eqn:Er; [|reflexivity]. apply Z.ltb_lt in Er.
    destruct (add_to_first_empty iid rem l) as [[l1 a]|] eqn:Ea.
    + destruct (add_to_first_empty_some iid rem l l1 a Hl Er Ea) as (A1 & _ & _ & A4).
      apply IH; [exact A1 | lia].
    + destruct (Z.of_nat (List.length l) <? mc); [|reflexivity].
      destruct (new_cell ss) as [nc|e] eqn:En; [|reflexivity].
      destruct (new_cell_fill ss nc iid rem En Er) as (G1 & _ & _ & G4 & _).
      destruct (add_items nc iid rem) as [nc' a]. simpl in *.
      apply IH; [apply Forall_app; split; [exact Hl | constructor; auto] | lia].
Qed.

Lemma overflow_spec : forall fuel iid ss mc l rem l' r,
  Forall cell_inv l -> (Z.to_nat rem <= fuel)%nat -> 0 <= rem ->
  overflow fuel iid ss mc l rem = (l', r, None) ->
  Forall cell_inv l' /\
  (exists lm nw, l' = app lm nw /\ Forall2 add_rel l lm /\
     Forall (fun c => max_stack_size c = ss /\ nonempty c) nw /\
     (nw <> [] -> Forall nonempty lm) /\
     (nw = [] \/ Z.of_nat (List.length l') <= mc)) /\
  count_in iid l' = count_in iid l + (rem - r) /\ 0 <= r <= rem /\
  (0 < r -> Forall nonempty l' /\ mc <= Z.of_nat (List.length l')).
Proof.
  induction fuel as [|f IH]; intros iid ss mc l rem l' r Hl Hf Hr H.
  - simpl in H. injection H as <- <-.
    splits; auto; try lia.
    exists l, (@nil InventoryCellComponent). rewrite app_nil_r. splits; auto using Forall2_add_rel_refl; congruence.
  - rewrite overflow_S in H.
    destruct (0 <? rem) eqn:Er.
    2: { injection H as <- <-. apply Z.ltb_ge in Er.
         splits; auto; try lia.
         exists l, (@nil InventoryCellComponent). rewrite app_nil_r. splits; auto using Forall2_add_rel_refl; congruence. }
    apply Z.ltb_lt in Er.
    destruct (add_to_first_empty iid rem l) as [[l1 a]|] eqn:Ea.
    + destruct (add_to_first_empty_some iid rem l l1 a Hl Er Ea) as (A1 & A2 & A3 & A4).
      destruct (IH iid ss mc l1 (rem - a) l' r A1 ltac:(lia) ltac:(lia) H)
        as (I1 & (lm & nw & I2 & I3 & I4 & I5 & I6) & I7 & I8 & I9).
      refine (conj I1 (conj _ (conj _ (conj _ I9)))); [|lia|lia].
      exists lm, nw. splits; eauto using Forall2_add_rel_trans.
    + pose proof (add_to_first_empty_none iid rem l Ea) as Hne.
      destruct (Z.of_nat (List.length l) <? mc) eqn:Ec.
      2: { injection H as <- <-. apply Z.ltb_ge in Ec.
           splits; auto; try lia.
           exists l, (@nil InventoryCellComponent). rewrite app_nil_r. splits; auto using Forall2_add_rel_refl; congruence. }
      apply Z.ltb_lt in Ec.
      destruct (new_cell ss) as [nc|e] eqn:En; [|discriminate].
      destruct (new_cell_fill ss nc iid rem En Er) as (G1 & G2 & G3 & G4 & G5 & G6).
      destruct (add_items nc iid rem) as [nc' a]. simpl in *.
      assert (Hl1 : Forall cell_inv (app l [nc'])) by (apply Forall_app; auto).
      destruct (IH iid ss mc (app l [nc']) (rem - a) l' r Hl1 ltac:(lia) ltac:(lia) H)
        as (I1 & (lm1 & nw1 & I2 & I3 & I4 & I5 & I6) & I7 & I8 & I9).
      apply Forall2_app_inv_l in I3 as (la & lb & J1 & J2 & ->).
      inversion J2 as [|? x ? ? Jx Jnil]; subst. inversion Jnil; subst.
      refine (conj I1 (conj _ (conj _ (conj _ I9))));
        [| rewrite !count_in_app in *; cbn [count_in] in *; unfold count1 in *; lia | lia].
      exists la, (x :: nw1). splits.
      * rewrite <- app_assoc. reflexivity.
      * exact J1.
      * constructor; [|exact I4]. destruct Jx as [Jx1 Jx2]. destruct G2 as [G2a _].
        split; [congruence | apply Jx2; exact G5].
      * eapply Forall2_add_rel_nonempty; eauto.
      * right. destruct I6 as [-> | I6]; [|exact I6].
        rewrite app_nil_r, length_app. simpl.
        apply Forall2_length in J1. lia.
Qed.


Lemma add_item_spec : forall inv iid q ms inv' r,
  Forall cell_inv (cells inv) -> add_item inv iid q ms = (inv', Ret r) ->
  Forall cell_inv (cells inv') /\
  max_cells inv' = max_cells inv /\ default_max_stack_size inv' = default_max_stack_size inv /\
  get_item_count inv' iid = get_item_count inv iid + r /\
  0 <= r /\ r <= Z.max 0 q /\
  (r < q -> Forall nonempty (cells inv') /\ max_cells inv <= Z.of_nat (List.length (cells inv'))) /\
  (exists lm nw, cells inv' = app lm nw /\ Forall2 add_rel (cells inv) lm /\
     Forall (fun c => max_stack_size c = stack_size_for inv ms /\ nonempty c) nw /\
     (nw <> [] -> Forall nonempty lm) /\
     (nw = [] \/ Z.of_nat (List.length (cells inv')) <= max_cells inv)).
Proof.
  intros inv iid q ms inv' r Hl H. unfold add_item in H.
  destruct (q <=? 0) eqn:Eq.
  { injection H as <- <-. apply Z.leb_le in Eq.
    refine (conj Hl (conj eq_refl (conj eq_refl _))). splits; try lia.
    exists (cells inv), (@nil InventoryCellComponent). rewrite app_nil_r.
    splits; auto using Forall2_add_rel_refl; congruence. }
  apply Z.leb_gt in Eq.
  pose proof (fill_pass_spec iid (cells inv) q Hl Eq) as F.
  destruct (fill_pass iid (cells inv) q) as [[l1 rem1] early].
  destruct F as (F1 & F2 & F3 & F4 & F5 & F6).
  destruct early.
  { injection H as <- <-. specialize (F5 eq_refl). subst rem1.
    refine (conj F1 (conj eq_refl (conj eq_refl _))).
    unfold get_item_count. simpl. splits; try lia.
    exists l1, (@nil InventoryCellComponent). rewrite app_nil_r.
    splits; auto; congruence. }
  specialize (F6 eq_refl).
  destruct (overflow (Z.to_nat rem1) iid (stack_size_for inv ms) (max_cells inv) l1 rem1)
    as [[l2 rem2] err] eqn:Eo.
  destruct err as [e|]; [discriminate|]. injection H as <- <-.
  assert (Hr1 : 0 <= rem1) by lia.
  destruct (overflow_spec _ _ _ _ _ _ _ _ F1 (le_n _) Hr1 Eo)
    as (O1 & (lm & nw & O2 & O3 & O4 & O5 & O6) & O7 & O8 & O9).
  refine (conj O1 (conj eq_refl (conj eq_refl _))).
  unfold get_item_count. simpl. splits; try lia.
  all: try (apply O9; lia).
  all: try (exists lm, nw; splits; eauto using Forall2_add_rel_trans; fail).
  all: try (destruct (O9 ltac:(lia)); assumption).
Qed.



(** Claim C7. Start from an inventory whose cells all satisfy the cell
    invariant. Suppose no capacity limit is hit: [add_item] with [a], then
    with [b], adds the full amount each time, and one [add_item] with [a + b]
    adds its full amount. Then both orderings leave the same item count. *)
Theorem add_item_split_same_total : forall inv iid a b ms1 ms2 ms3 inv1 inv2 inv3,
  Forall cell_inv (cells inv) ->
  add_item inv iid a ms1 = (inv1, Ret a) ->
  add_item inv1 iid b ms2 = (inv2, Ret b) ->
  add_item inv iid (a + b) ms3 = (inv3, Ret (a + b)) ->
  get_item_count inv2 iid = get_item_count inv3 iid.
Proof.
  intros inv iid a b ms1 ms2 ms3 inv1 inv2 inv3 Hl H1 H2 H3.
  destruct (add_item_spec _ _ _ _ _ _ Hl H1) as (I1 & _ & _ & C1 & _).
  destruct (add_item_spec _ _ _ _ _ _ I1 H2) as (_ & _ & _ & C2 & _).
  destruct (add_item_spec _ _ _ _ _ _ Hl H3) as (_ & _ & _ & C3 & _).
  lia.
Qed.

Lemma add_item_split_same_total_witness :
  get_item_count (fst (add_item (fst (add_item inv_two_slots "potion" 3 None)) "potion" 4 None))
    "potion" =
  get_item_count (fst (add_item inv_two_slots "potion" 7 None)) "potion".
Proof.
  apply (add_item_split_same_total inv_two_slots "potion" 3 4 None None None
           (fst (add_item inv_two_slots "potion" 3 None))).
  - apply Forall_nil.
  - vm_compute. reflexivity.
  - vm_compute. reflexivity.
  - vm_compute. reflexivity.
Defined.

(** ** remove_item, has_item and the clearing methods *)

Lemma holds_facts : forall iid c, holds iid c = true -> item_id c = Some iid /\ quantity c <> 0.
Proof.
  intros iid [ct id q ms st eq] H. unfold holds, is_empty in H; simpl in *.
  destruct (q =? 0) eqn:Eq; [discriminate|]. apply Z.eqb_neq in Eq.
  destruct id as [s|]; [|discriminate]. simpl in H.
  apply String.eqb_eq in H. subst. auto.
Qed.

Lemma count1_other : forall iid j c, holds iid c = true -> j <> iid -> count1 j c = 0.
Proof.
  intros iid j c H Hj. destruct (holds_facts _ _ H) as [Hi _].
  unfold count1, holds. rewrite Hi. simpl.
  destruct (String.eqb iid j) eqn:E; [apply String.eqb_eq in E; congruence|].
  rewrite andb_false_r. reflexivity.
Qed.

Lemma count_in_nonneg : forall j l, Forall (fun c => 0 <= quantity c) l -> 0 <= count_in j l.
Proof.
  intros j l H. induction H as [|c l Hc Hl IH]; simpl; [lia|].
  destruct (holds j c); lia.
Qed.

Lemma cell_inv_nonneg : forall l, Forall cell_inv l -> Forall (fun c => 0 <= quantity c) l.
Proof.
  intros l H. eapply Forall_impl; [|exact H]. intros c (_ & Hq & _). lia.
Qed.

Lemma remove_items_facts : forall iid c n, cell_inv c -> holds iid c = true -> 0 < n ->
  let (c', a) := remove_items c n in
  cell_inv c' /\ a = Z.min n (quantity c) /\ count1 iid c' = quantity c - a /\
  (forall j, j <> iid -> count1 j c' = 0).
Proof.
  intros iid c n Hinv Hh Hn.
  pose proof (remove_items_spec c n Hinv) as Hinv'.
  destruct (holds_facts _ _ Hh) as [Hi Hq].
  assert (He : is_empty c = false) by (unfold holds in Hh; destruct (is_empty c); [discriminate | reflexivity]).
  unfold remove_items in *. rewrite He in *.
  replace ((n <=? 0) || false) with false in * by (symmetry; apply orb_false_iff; split; [apply Z.leb_gt; lia | reflexivity]).
  simpl in Hinv'. split; [exact Hinv'|]. split; [reflexivity|].
  destruct (quantity c - Z.min n (quantity c) =? 0) eqn:E.
  - apply Z.eqb_eq in E. unfold count1, holds, is_empty. simpl.
    rewrite orb_true_r. simpl. split; [lia|]. reflexivity.
  - apply Z.eqb_neq in E. split.
    + unfold count1, holds, is_empty. simpl. rewrite Hi. simpl.
      replace (quantity c - Z.min n (quantity c) =? 0) with false by (symmetry; apply Z.eqb_neq; exact E).
      rewrite String.eqb_refl. reflexivity.
    + intros j Hj. unfold count1, holds, is_empty. simpl. rewrite Hi. simpl.
      destruct (String.eqb iid j) eqn:Es; [apply String.eqb_eq in Es; congruence|].
      rewrite andb_false_r. reflexivity.
Qed.

Lemma remove_pass_spec : forall iid l rem, Forall cell_inv l -> 0 < rem ->
  let '(l', r, b) := remove_pass iid l rem in
  Forall cell_inv l' /\ count_in iid l' = count_in iid l - (rem - r) /\ 0 <= r <= rem /\
  (b = true -> r = 0) /\ (b = false -> 0 < r /\ count_in iid l' = 0) /\
  (forall j, j <> iid -> count_in j l' = count_in j l).
Proof.
  intros iid l. induction l as [|c l IH]; intros rem Hl Hr; cbn [remove_pass].
  { simpl. splits; try constructor; try lia; try discriminate; reflexivity. }
  inversion Hl as [|? ? Hc Hl']; subst.
  destruct (holds iid c) eqn:Eh.
  - pose proof (remove_items_facts iid c rem Hc Eh Hr) as R.
    destruct (remove_items c rem) as [c' a] eqn:Er.
    destruct R as (R1 & R2 & R3 & R4).
    destruct (holds_facts _ _ Eh) as [_ Hq0].
    assert (Hq : 0 < quantity c) by (destruct Hc as (_ & ? & _); lia).
    destruct (rem - a <=? 0) eqn:E.
    + apply Z.leb_le in E.
      cbn [count_in]. fold (count1 iid c'). fold (count1 iid c).
      unfold count1 at 2. rewrite Eh.
      refine (conj (Forall_cons _ R1 Hl') (conj _ (conj _ (conj _ (conj _ _))))).
      * lia.
      * lia.
      * intros _. lia.
      * discriminate.
      * intros j Hj. fold (count1 j c'). fold (count1 j c).
        rewrite (R4 j Hj), (count1_other iid j c Eh Hj). reflexivity.
    + apply Z.leb_gt in E.
      specialize (IH (rem - a) Hl' E).
      destruct (remove_pass iid l (rem - a)) as [[l'' r] b].
      destruct IH as (I1 & I2 & I3 & I4 & I5 & I6).
      cbn [count_in]. fold (count1 iid c'). fold (count1 iid c).
      unfold count1 at 2. rewrite Eh.
      refine (conj (Forall_cons _ R1 I1) (conj _ (conj _ (conj I4 (conj _ _))))).
      * lia.
      * lia.
      * intros Hb. destruct (I5 Hb) as [I5a I5b]. split; [exact I5a|].
        assert (a = quantity c) by lia. lia.
      * intros j Hj. fold (count1 j c'). fold (count1 j c).
        rewrite (R4 j Hj), (count1_other iid j c Eh Hj), (I6 j Hj). reflexivity.
  - specialize (IH rem Hl' Hr).
    destruct (remove_pass iid l rem) as [[l'' r] b].
    destruct IH as (I1 & I2 & I3 & I4 & I5 & I6).
    cbn [count_in]. rewrite Eh.
    refine (conj (Forall_cons _ Hc I1) (conj _ (conj I3 (conj I4 (conj _ _))))).
    + lia.
    + intros Hb. destruct (I5 Hb). split; [assumption | lia].
    + intros j Hj. rewrite (I6 j Hj). reflexivity.
Qed.

Lemma remove_item_spec : forall inv iid q, Forall cell_inv (cells inv) ->
  let (inv', r) := remove_item inv iid q in
  Forall cell_inv (cells inv') /\ r = Z.max 0 (Z.min q (get_item_count inv iid)) /\
  get_item_count inv' iid = get_item_count inv iid - r /\
  (forall j, j <> iid -> get_item_count inv' j = get_item_count inv j).
Proof.
  intros inv iid q Hl. unfold remove_item, get_item_count.
  pose proof (count_in_nonneg iid _ (cell_inv_nonneg _ Hl)) as Hc.
  destruct (q <=? 0) eqn:Eq.
  { apply Z.leb_le in Eq. refine (conj Hl (conj _ (conj _ _))); [lia | lia | reflexivity]. }
  apply Z.leb_gt in Eq.
  pose proof (remove_pass_spec iid (cells inv) q Hl Eq) as R.
  destruct (remove_pass iid (cells inv) q) as [[l r] b].
  destruct R as (R1 & R2 & R3 & R4 & R5 & R6). simpl.
  pose proof (count_in_nonneg iid _ (cell_inv_nonneg _ R1)) as Hc'.
  refine (conj R1 (conj _ (conj _ R6))); destruct b.
  - specialize (R4 eq_refl). lia.
  - destruct (R5 eq_refl). lia.
  - specialize (R4 eq_refl). lia.
  - destruct (R5 eq_refl). lia.
Qed.

Lemma has_item_loop_spec : forall iid q l t, Forall (fun c => 0 <= quantity c) l -> t < q ->
  (has_item_loop iid q t l = true <-> q <= t + count_in iid l).
Proof.
  intros iid q l. induction l as [|c l IH]; intros t Hl Ht; simpl.
  { split; [discriminate | lia]. }
  inversion Hl as [|? ? Hc Hl']; subst.
  pose proof (count_in_nonneg iid l Hl') as Hn.
  destruct (holds iid c).
  - destruct (t + quantity c >=? q) eqn:E.
    + apply Z.geb_le in E. split; [lia | reflexivity].
    + rewrite Z.geb_leb in E. apply Z.leb_gt in E. rewrite (IH _ Hl' E). lia.
  - rewrite (IH _ Hl' Ht). lia.
Qed.

Lemma clear_slot_spec : forall c, 0 <= max_stack_size c ->
  clear_slot c = (mkCell (cell_component_type c) None 0 (max_stack_size c) (slot_type c)
                    (is_equipped c), Ret (quantity c)).
Proof.
  intros [ct id q ms st eq] Hm. simpl in Hm.
  unfold clear_slot, assign_quantity, validate_quantity. simpl.
  replace (0 >? ms) with false by (symmetry; rewrite Z.gtb_ltb; apply Z.ltb_ge; lia).
  destruct id; reflexivity.
Qed.

Lemma clear_cells_spec : forall l, Forall (fun c => 0 <= max_stack_size c) l ->
  clear_cells l = (map (fun c => mkCell (cell_component_type c) None 0 (max_stack_size c)
                                   (slot_type c) (is_equipped c)) l, None).
Proof.
  intros l H. induction H as [|c l Hc Hl IH]; [reflexivity|].
  simpl. rewrite (clear_slot_spec c Hc), IH. reflexivity.
Qed.

Lemma with_cells_same : forall inv, with_cells inv (cells inv) = inv.
Proof. intros [t l m d]. reflexivity. Qed.

Lemma full_cell_nonempty : forall c, cell_inv c -> is_full c = true -> is_empty c = false.
Proof.
  intros c Hc Hf. pose proof (is_empty_inv c Hc) as He.
  destruct Hc as (Hm & Hq & _). unfold is_full in Hf. apply Z.leb_le in Hf.
  destruct (is_empty c) eqn:E; [|reflexivity]. exfalso.
  assert (quantity c = 0) by (apply He; reflexivity). lia.
Qed.

Lemma fill_pass_full : forall iid l rem,
  Forall (fun c => cell_inv c /\ is_full c = true) l -> 0 < rem ->
  fill_pass iid l rem = (l, rem, false).
Proof.
  intros iid l rem H Hr. induction H as [|c l [Hc Hf] Hl IH]; [reflexivity|].
  simpl. rewrite IH. destruct (holds iid c) eqn:Eh; [|reflexivity].
  destruct (holds_facts _ _ Eh) as [Hi _].
  assert (Hne := full_cell_nonempty c Hc Hf).
  destruct Hc as (Hm & Hq & _). unfold is_full in Hf. apply Z.leb_le in Hf.
  unfold add_items. replace (rem <=? 0) with false by (symmetry; apply Z.leb_gt; lia).
  rewrite Hne, Hi, item_is_refl. simpl.
  replace (Z.min rem (max_stack_size c - quantity c)) with 0 by lia.
  replace (rem - 0 <=? 0) with false by (symmetry; apply Z.leb_gt; lia).
  rewrite Z.sub_0_r, Z.add_0_r, IH, <- Hi. destruct c; reflexivity.
Qed.

Lemma add_to_first_empty_nonempty : forall iid rem l,
  Forall nonempty l -> add_to_first_empty iid rem l = None.
Proof.
  intros iid rem l H. induction H as [|c l Hc Hl IH]; [reflexivity|].
  simpl. unfold nonempty in Hc. rewrite Hc, IH. reflexivity.
Qed.

Lemma firstn_length_le_Z : forall {A} (l : list A) m, 0 <= m ->
  Z.of_nat (List.length (firstn (Z.to_nat m) l)) <= m.
Proof. intros A l m Hm. rewrite length_firstn. lia. Qed.

(** [remove_item] on an inventory whose cells satisfy the cell invariant
    removes [min(quantity, get_item_count)] items (none for a quantity
    [<= 0]), returns that number, lowers the item's count by it, and leaves
    the count of every other item as it was. *)
Theorem remove_item_removes_min : forall inv iid q, Forall cell_inv (cells inv) ->
  let (inv', r) := remove_item inv iid q in
  r = Z.max 0 (Z.min q (get_item_count inv iid)) /\
  get_item_count inv' iid = get_item_count inv iid - r /\
  (forall j, j <> iid -> get_item_count inv' j = get_item_count inv j) /\
  Forall cell_inv (cells inv').
Proof.
  intros inv iid q Hl. pose proof (remove_item_spec inv iid q Hl) as R.
  destruct (remove_item inv iid q) as [inv' r]. tauto.
Qed.

Lemma remove_item_removes_min_witness :
  remove_item inv_three_potions "potion" 5 =
    (fst (remove_item inv_three_potions "potion" 5), 3) /\
  get_item_count (fst (remove_item inv_three_potions "potion" 5)) "potion" = 0.
Proof.
  assert (Hl : Forall cell_inv (cells inv_three_potions)).
  { repeat constructor; unfold cell_inv; simpl; try lia; discriminate. }
  pose proof (remove_item_removes_min inv_three_potions "potion" 5 Hl) as R.
  destruct (remove_item inv_three_potions "potion" 5) as [inv' r] eqn:E.
  destruct R as (R1 & R2 & _). simpl in R1. subst r. simpl. split; [reflexivity|].
  rewrite R2. reflexivity.
Defined.

(** Adding [q] items that all fit and then removing [q] of that item
    removes exactly [q] and brings the item's count back to what it was. *)
Theorem add_then_remove_restores : forall inv iid q ms inv1,
  Forall cell_inv (cells inv) -> add_item inv iid q ms = (inv1, Ret q) ->
  let (inv2, r) := remove_item inv1 iid q in
  r = q /\ get_item_count inv2 iid = get_item_count inv iid.
Proof.
  intros inv iid q ms inv1 Hl H.
  destruct (add_item_spec _ _ _ _ _ _ Hl H) as (A1 & _ & _ & A4 & A5 & _).
  pose proof (remove_item_spec inv1 iid q A1) as R.
  pose proof (count_in_nonneg iid _ (cell_inv_nonneg _ Hl)) as Hc.
  unfold get_item_count in *.
  destruct (remove_item inv1 iid q) as [inv2 r]. destruct R as (_ & R2 & R3 & _).
  unfold get_item_count in *. lia.
Qed.

Lemma add_then_remove_restores_witness :
  remove_item (fst (add_item inv_three_potions "potion" 4 None)) "potion" 4 =
    (fst (remove_item (fst (add_item inv_three_potions "potion" 4 None)) "potion" 4), 4) /\
  get_item_count (fst (remove_item (fst (add_item inv_three_potions "potion" 4 None)) "potion" 4))
    "potion" = get_item_count inv_three_potions "potion".
Proof.
  assert (Hl : Forall cell_inv (cells inv_three_potions)).
  { repeat constructor; unfold cell_inv; simpl; try lia; discriminate. }
  pose proof (add_then_remove_restores inv_three_potions "potion" 4 None
                (fst (add_item inv_three_potions "potion" 4 None)) Hl
                ltac:(vm_compute; reflexivity)) as R.
  destruct (remove_item (fst (add_item inv_three_potions "potion" 4 None)) "potion" 4)
    as [inv2 r]. destruct R as [R1 R2]. subst r. split; [reflexivity | exact R2].
Defined.

(** On cells with non-negative quantities, [has_item] holds exactly when
    the quantity asked for is [<= 0] or at most [get_item_count]: its early
    exit never changes the answer. *)
Theorem has_item_iff_count : forall inv iid q,
  Forall (fun c => 0 <= quantity c) (cells inv) ->
  (has_item inv iid q = true <-> q <= 0 \/ q <= get_item_count inv iid).
Proof.
  intros inv iid q Hl. unfold has_item, get_item_count.
  destruct (q <=? 0) eqn:Eq.
  - apply Z.leb_le in Eq. split; [intros _; now left | reflexivity].
  - apply Z.leb_gt in Eq. rewrite (has_item_loop_spec iid q _ 0 Hl Eq). lia.
Qed.

Lemma has_item_iff_count_witness :
  has_item inv_three_potions "potion" 3 = true /\ has_item inv_three_potions "potion" 4 = false.
Proof.
  assert (Hl : Forall (fun c => 0 <= quantity c) (cells inv_three_potions)).
  { repeat constructor; simpl; lia. }
  split.
  - apply (has_item_iff_count inv_three_potions "potion" 3 Hl). right. vm_compute. discriminate.
  - destruct (has_item inv_three_potions "potion" 4) eqn:E; [|reflexivity].
    apply (has_item_iff_count inv_three_potions "potion" 4 Hl) in E.
    vm_compute in E. destruct E as [E | E]; exfalso; apply E; reflexivity.
Defined.

(** [clear_slot] never raises on a cell with [max_stack_size >= 0] (the
    [ge=1] constraint): it returns the previous quantity and leaves the cell
    empty ([item_id = None], [quantity = 0]) with its other fields kept. *)
Theorem clear_slot_empties : forall c, 0 <= max_stack_size c ->
  clear_slot c = (mkCell (cell_component_type c) None 0 (max_stack_size c) (slot_type c)
                    (is_equipped c), Ret (quantity c)) /\
  is_empty (fst (clear_slot c)) = true.
Proof.
  intros c Hm. rewrite (clear_slot_spec c Hm). split; [reflexivity|].
  unfold is_empty. simpl. reflexivity.
Qed.

Lemma clear_slot_empties_witness :
  clear_slot (mkCell INVENTORY (Some "potion") 3 5 None true) =
    (mkCell INVENTORY None 0 5 None true, Ret 3) /\
  is_empty (fst (clear_slot (mkCell INVENTORY (Some "potion") 3 5 None true))) = true.
Proof. apply (clear_slot_empties (mkCell INVENTORY (Some "potion") 3 5 None true)). simpl. lia. Defined.

(** [clear_all] on cells with [max_stack_size >= 0] never raises, keeps the
    number of cells and the inventory's settings, leaves every item with
    count [0] and makes every cell empty. *)
Theorem clear_all_empties : forall inv,
  Forall (fun c => 0 <= max_stack_size c) (cells inv) ->
  let (inv', r) := clear_all inv in
  r = Ret tt /\ List.length (cells inv') = List.length (cells inv) /\
  (forall j, get_item_count inv' j = 0) /\
  get_empty_cells_count inv' = Z.of_nat (List.length (cells inv')) /\
  max_cells inv' = max_cells inv /\ default_max_stack_size inv' = default_max_stack_size inv.
Proof.
  intros inv Hl. unfold clear_all. rewrite (clear_cells_spec _ Hl). simpl.
  refine (conj eq_refl (conj (length_map _ _) (conj _ (conj _ (conj eq_refl eq_refl))))).
  - intros j. unfold get_item_count. simpl. clear. induction (cells inv) as [|c l IH]; [reflexivity|].
    simpl. unfold holds, is_empty. simpl. rewrite ?orb_true_r. simpl. exact IH.
  - unfold get_empty_cells_count. simpl. f_equal. f_equal.
    clear. induction (cells inv) as [|c l IH]; [reflexivity|].
    cbn [map filter]. replace (is_empty _) with true by reflexivity. rewrite IH. reflexivity.
Qed.

Lemma clear_all_empties_witness :
  clear_all inv_three_potions = (mkInv INVENTORY [mkCell INVENTORY None 0 5 None false] 2 5, Ret tt) /\
  get_item_count (fst (clear_all inv_three_potions)) "potion" = 0.
Proof.
  assert (Hl : Forall (fun c => 0 <= max_stack_size c) (cells inv_three_potions)).
  { repeat constructor; simpl; lia. }
  pose proof (clear_all_empties inv_three_potions Hl) as R.
  destruct (clear_all inv_three_potions) as [inv' r] eqn:E.
  destruct R as (R1 & _ & R3 & _). subst r. simpl. split; [|apply R3].
  vm_compute in E. congruence.
Defined.

(** On a full inventory ([InventoryComponent.is_full]) whose cells satisfy
    the cell invariant, [add_item] adds nothing, returns [0] and leaves the
    inventory unchanged; no cell is empty there. *)
Theorem full_inventory_rejects_add : forall inv iid q ms,
  Forall cell_inv (cells inv) -> inventory_is_full inv = true ->
  add_item inv iid q ms = (inv, Ret 0) /\ get_empty_cells_count inv = 0.
Proof.
  intros inv iid q ms Hl Hf. unfold inventory_is_full in Hf.
  destruct (Z.of_nat (List.length (cells inv)) <? max_cells inv) eqn:Elen; [discriminate|].
  apply Z.ltb_ge in Elen.
  assert (Hall : Forall (fun c => cell_inv c /\ is_full c = true) (cells inv)).
  { rewrite forallb_forall in Hf. apply Forall_forall. intros c Hc. split.
    - eapply Forall_forall; eauto.
    - exact (Hf c Hc). }
  assert (Hne : Forall nonempty (cells inv)).
  { eapply Forall_impl; [|exact Hall]. intros c [Hc Hfc]. exact (full_cell_nonempty c Hc Hfc). }
  split.
  - unfold add_item. destruct (q <=? 0) eqn:Eq; [reflexivity|]. apply Z.leb_gt in Eq.
    rewrite (fill_pass_full iid _ q Hall Eq).
    destruct (Z.to_nat q) as [|f] eqn:Ef; [lia|]. simpl.
    replace (0 <? q) with true by (symmetry; apply Z.ltb_lt; exact Eq).
    rewrite (add_to_first_empty_nonempty iid q _ Hne).
    replace (Z.of_nat (List.length (cells inv)) <? max_cells inv) with false
      by (symmetry; apply Z.ltb_ge; exact Elen).
    rewrite Z.sub_diag, with_cells_same. reflexivity.
  - unfold get_empty_cells_count. clear - Hne. induction Hne as [|c l Hc Hl IH]; [reflexivity|].
    simpl. unfold nonempty in Hc. rewrite Hc. exact IH.
Qed.

Lemma full_inventory_rejects_add_witness :
  add_item (mkInv INVENTORY [mkCell INVENTORY (Some "potion") 5 5 None false] 1 5) "gem" 2 None =
    (mkInv INVENTORY [mkCell INVENTORY (Some "potion") 5 5 None false] 1 5, Ret 0) /\
  get_empty_cells_count (mkInv INVENTORY [mkCell INVENTORY (Some "potion") 5 5 None false] 1 5) = 0.
Proof.
  apply (full_inventory_rejects_add (mkInv INVENTORY [mkCell INVENTORY (Some "potion") 5 5 None false] 1 5)).
  - repeat constructor; unfold cell_inv; simpl; try lia; discriminate.
  - reflexivity.
Defined.

(** [validate_cells_count] keeps the first [max_cells] cells (all of them
    when there are no more), keeps the other fields, and is idempotent. *)
Theorem validate_cells_count_truncates : forall inv, 0 <= max_cells inv ->
  cells (validate_cells_count inv) = firstn (Z.to_nat (max_cells inv)) (cells inv) /\
  Z.of_nat (List.length (cells (validate_cells_count inv))) <= max_cells inv /\
  max_cells (validate_cells_count inv) = max_cells inv /\
  default_max_stack_size (validate_cells_count inv) = default_max_stack_size inv /\
  validate_cells_count (validate_cells_count inv) = validate_cells_count inv.
Proof.
  intros inv Hm. unfold validate_cells_count.
  destruct (max_cells inv <? Z.of_nat (List.length (cells inv))) eqn:E.
  - simpl. rewrite (proj2 (Z.ltb_ge _ _) (firstn_length_le_Z (cells inv) _ Hm)).
    refine (conj eq_refl (conj (firstn_length_le_Z _ _ Hm) (conj eq_refl (conj eq_refl eq_refl)))).
  - rewrite E. apply Z.ltb_ge in E.
    refine (conj _ (conj E (conj eq_refl (conj eq_refl eq_refl)))).
    symmetry. apply firstn_all2. lia.
Qed.

Lemma validate_cells_count_truncates_witness :
  cells (validate_cells_count (mkInv INVENTORY [cell5; cell5; cell5] 2 5)) = [cell5; cell5].
Proof.
  rewrite (proj1 (validate_cells_count_truncates (mkInv INVENTORY [cell5; cell5; cell5] 2 5)
                    ltac:(simpl; lia))).
  reflexivity.
Defined.

(** ** Stats: names, lookups and bounds *)

Lemma get_stat_list_none_iff : forall nm l,
  get_stat_list nm l = None <-> ~ In nm (map name l).
Proof.
  intros nm l. induction l as [|s l IH]; simpl; [tauto|].
  destruct (String.eqb (name s) nm) eqn:E.
  - apply String.eqb_eq in E. split; [discriminate | intros H; exfalso; apply H; now left].
  - apply String.eqb_neq in E. rewrite IH. split; intros H; [intros [H1|H1]; auto | auto].
Qed.

Lemma get_stat_list_app_new : forall nm l s, name s = nm -> get_stat_list nm l = None ->
  get_stat_list nm (app l [s]) = Some s.
Proof.
  intros nm l s Hs. induction l as [|s0 l IH]; simpl.
  - intros _. rewrite Hs, String.eqb_refl. reflexivity.
  - destruct (String.eqb (name s0) nm); [discriminate | exact IH].
Qed.

Lemma get_stat_list_app_other : forall j l s, name s <> j ->
  get_stat_list j (app l [s]) = get_stat_list j l.
Proof.
  intros j l s Hs. induction l as [|s0 l IH]; simpl.
  - destruct (String.eqb (name s) j) eqn:E; [apply String.eqb_eq in E; congruence | reflexivity].
  - destruct (String.eqb (name s0) j); [reflexivity | exact IH].
Qed.

Lemma remove_first_other : forall nm j l, j <> nm ->
  get_stat_list j (fst (remove_first nm l)) = get_stat_list j l.
Proof.
  intros nm j l Hj. induction l as [|s l IH]; simpl; [reflexivity|].
  destruct (String.eqb (name s) nm) eqn:E.
  - apply String.eqb_eq in E. destruct (String.eqb (name s) j) eqn:E2;
      [apply String.eqb_eq in E2; congruence | reflexivity].
  - destruct (remove_first nm l) as [l' b]. simpl in *.
    destruct (String.eqb (name s) j); [reflexivity | exact IH].
Qed.

Lemma remove_first_names : forall nm l, NoDup (map name l) ->
  NoDup (map name (fst (remove_first nm l))) /\ ~ In nm (map name (fst (remove_first nm l))) /\
  (forall x, In x (map name (fst (remove_first nm l))) -> In x (map name l)).
Proof.
  intros nm l. induction l as [|s l IH]; intros H; simpl.
  { split; [constructor | split; [tauto | tauto]]. }
  inversion H as [|? ? Hn Hl]; subst.
  destruct (String.eqb (name s) nm) eqn:E.
  - apply String.eqb_eq in E. subst. simpl. split; [exact Hl | split; [exact Hn | auto]].
  - apply String.eqb_neq in E. destruct (IH Hl) as (I1 & I2 & I3).
    destruct (remove_first nm l) as [l' b]. simpl in *.
    split; [constructor; [intros Hx; apply Hn, I3, Hx | exact I1]|].
    split.
    + intros [Hx | Hx]; [congruence | exact (I2 Hx)].
    + intros x [Hx | Hx]; [now left | right; exact (I3 x Hx)].
Qed.

Lemma NoDup_app_single : forall (l : list string) x, NoDup l -> ~ In x l -> NoDup (app l [x]).
Proof.
  intros l x H. induction H as [|y l Hy Hl IH]; intros Hx; simpl.
  - constructor; [simpl; tauto | constructor].
  - constructor.
    + rewrite in_app_iff. simpl. intros [H1 | [H1 | []]]; [exact (Hy H1) | apply Hx; left; auto].
    + apply IH. intros H1. apply Hx. now right.
Qed.

Lemma remove_first_get : forall nm l, NoDup (map name l) ->
  get_stat_list nm (fst (remove_first nm l)) = None.
Proof.
  intros nm l H. apply get_stat_list_none_iff. exact (proj1 (proj2 (remove_first_names nm l H))).
Qed.

(** What [add_stat] does to the list: [l0] is the list after the optional
    replacement; a successful call appends the new stat to it, a raising
    call leaves it. *)
Lemma add_stat_shape : forall (sc : StatsComponent) (nm : string) (base : Q)
    (cur minv maxv : option Q) (desc : string) (rep : bool),
  let l0 := match get_stat sc nm with
            | Some _ => if rep then fst (remove_first nm (stats sc)) else stats sc
            | None => stats sc
            end in
  let (sc', o) := add_stat sc nm base cur minv maxv desc rep in
  max_stats sc' = max_stats sc /\
  match o with
  | Ret s => stats sc' = app l0 [s] /\ name s = nm /\ (get_stat sc nm = None \/ rep = true)
  | Raise _ => stats sc' = l0
  end.
Proof.
  intros sc nm base cur minv maxv desc rep. unfold add_stat.
  destruct (get_stat sc nm) as [s0|] eqn:Eg.
  - destruct rep.
    + unfold remove_stat. destruct (remove_first nm (stats sc)) as [l b] eqn:Er. simpl.
      destruct (max_stats sc) as [m|] eqn:Em; [destruct (m <=? Z.of_nat (List.length l))|]; simpl;
        repeat split; try reflexivity; try assumption; right; reflexivity.
    + simpl. split; reflexivity.
  - destruct (max_stats sc) as [m|] eqn:Em; [destruct (m <=? Z.of_nat (List.length (stats sc)))|];
      simpl; repeat split; try reflexivity; try assumption; left; reflexivity.
Qed.

Lemma set_current_spec : forall s v,
  let s' := set_current s v in
  name s' = name s /\ base_value s' = base_value s /\ min_value s' = min_value s /\
  max_value s' = max_value s /\
  (bounds_ordered s -> current_value s' = clamp_spec (min_value s) (max_value s) v) /\
  (bounds_ordered s -> in_bounds (min_value s) (max_value s) (current_value s')) /\
  (in_bounds (min_value s) (max_value s) v -> current_value s' = v).
Proof.
  intros s v. destruct (get_float_current s) as [E1 E2].
  unfold set_current, validate_current_value. rewrite E1, E2. simpl.
  refine (conj eq_refl (conj eq_refl (conj eq_refl (conj eq_refl _)))).
  unfold clamp_spec, bounds_ordered, in_bounds, qgt, qlt.
  destruct (min_value s) as [l|], (max_value s) as [h|]; simpl;
  qle_cases; repeat split; intros; try reflexivity; try tauto; try lra.
Qed.

Lemma update_stat_found : forall {A} nm (f : StatComponent -> StatComponent * A) l s,
  (forall x, name (fst (f x)) = name x) -> get_stat_list nm l = Some s ->
  let (l', r) := update_stat nm f l in
  get_stat_list nm l' = Some (fst (f s)) /\ r = Some (snd (f s)) /\
  map name l' = map name l /\ (forall j, j <> nm -> get_stat_list j l' = get_stat_list j l).
Proof.
  intros A nm f l s Hf. induction l as [|s0 l IH]; simpl; [discriminate|].
  destruct (String.eqb (name s0) nm) eqn:E.
  - intros H. injection H as <-. apply String.eqb_eq in E.
    destruct (f s0) as [s' a] eqn:Efs. specialize (Hf s0). rewrite Efs in Hf. simpl in Hf.
    simpl. rewrite Hf, E, String.eqb_refl. split; [reflexivity|]. split; [reflexivity|].
    split; [reflexivity|]. intros j Hj.
    destruct (String.eqb nm j) eqn:E2; [apply String.eqb_eq in E2; congruence | reflexivity].
  - intros H. specialize (IH H). destruct (update_stat nm f l) as [l'' r].
    destruct IH as (I1 & I2 & I3 & I4). simpl. rewrite E.
    split; [exact I1|]. split; [exact I2|]. split; [rewrite I3; reflexivity|].
    intros j Hj. destruct (String.eqb (name s0) j); [reflexivity | exact (I4 j Hj)].
Qed.

Lemma add_stat_l0_fresh : forall (sc : StatsComponent) (nm : string) (rep : bool),
  NoDup (get_stat_names sc) ->
  (get_stat sc nm = None \/ rep = true) ->
  let l0 := match get_stat sc nm with
            | Some _ => if rep then fst (remove_first nm (stats sc)) else stats sc
            | None => stats sc
            end in
  NoDup (map name l0) /\ get_stat_list nm l0 = None /\
  (forall j, j <> nm -> get_stat_list j l0 = get_stat sc j).
Proof.
  intros sc nm rep Hd Hc. unfold get_stat_names in Hd. simpl.
  destruct (get_stat sc nm) eqn:Eg.
  - destruct Hc as [Hc | ->]; [discriminate|].
    split; [exact (proj1 (remove_first_names nm _ Hd))|].
    split; [exact (remove_first_get nm _ Hd)|].
    intros j Hj; exact (remove_first_other nm j _ Hj).
  - split; [exact Hd|]. split; [exact Eg|]. reflexivity.
Qed.

(** [add_stat] keeps the names of a collection distinct: whether it adds,
    replaces or raises, a collection without duplicate names has none
    afterwards. *)
Theorem add_stat_keeps_names_distinct : forall sc nm base cur minv maxv desc rep,
  NoDup (get_stat_names sc) ->
  NoDup (get_stat_names (fst (add_stat sc nm base cur minv maxv desc rep))).
Proof.
  intros sc nm base cur minv maxv desc rep Hd.
  pose proof (add_stat_shape sc nm base cur minv maxv desc rep) as S. cbv zeta in S.
  destruct (add_stat sc nm base cur minv maxv desc rep) as [sc' o]. simpl.
  unfold get_stat_names. destruct S as [_ S]. destruct o as [s|e].
  - destruct S as (S1 & S2 & S3). rewrite S1, map_app. simpl.
    destruct (add_stat_l0_fresh sc nm rep Hd S3) as (F1 & F2 & _). cbv zeta in F1, F2.
    rewrite S2. apply NoDup_app_single; [exact F1|].
    apply get_stat_list_none_iff. exact F2.
  - rewrite S. unfold get_stat_names in Hd.
    destruct (get_stat sc nm); [destruct rep|]; try exact Hd.
    exact (proj1 (remove_first_names nm _ Hd)).
Qed.

Lemma add_stat_keeps_names_distinct_witness :
  NoDup (get_stat_names (fst (add_stat stats_str_dex "str" 12 None None None "" true))).
Proof.
  apply (add_stat_keeps_names_distinct stats_str_dex "str" 12 None None None "" true).
  vm_compute. constructor; [simpl; intros [H | []]; discriminate | constructor; [simpl; tauto | constructor]].
Defined.

(** On a collection without duplicate names, a successful [add_stat] makes
    [get_stat] find the stat it returned under its name, and every other name
    finds what it found before. *)
Theorem add_stat_then_get_stat : forall sc nm base cur minv maxv desc rep sc' s,
  NoDup (get_stat_names sc) ->
  add_stat sc nm base cur minv maxv desc rep = (sc', Ret s) ->
  get_stat sc' nm = Some s /\ has_stat sc' nm = true /\
  (forall j, j <> nm -> get_stat sc' j = get_stat sc j).
Proof.
  intros sc nm base cur minv maxv desc rep sc' s Hd H.
  pose proof (add_stat_shape sc nm base cur minv maxv desc rep) as S. cbv zeta in S.
  rewrite H in S. destruct S as [_ (S1 & S2 & S3)].
  destruct (add_stat_l0_fresh sc nm rep Hd S3) as (_ & F2 & F3). cbv zeta in F2, F3.
  unfold has_stat, get_stat. rewrite S1.
  rewrite (get_stat_list_app_new nm _ s S2 F2).
  split; [reflexivity | split; [reflexivity|]].
  intros j Hj. rewrite get_stat_list_app_other by congruence. exact (F3 j Hj).
Qed.

Lemma add_stat_then_get_stat_witness :
  get_stat (fst (add_stat stats_str_dex "str" 12 None None None "" true)) "str" =
    Some (StatComponent_new "str" (Some 12%Q) None None None "").
Proof.
  assert (Hd : NoDup (get_stat_names stats_str_dex)).
  { vm_compute. constructor; [simpl; intros [H | []]; discriminate | constructor; [simpl; tauto | constructor]]. }
  exact (proj1 (add_stat_then_get_stat stats_str_dex "str" 12 None None None "" true
            (fst (add_stat stats_str_dex "str" 12 None None None "" true))
            (StatComponent_new "str" (Some 12%Q) None None None "") Hd eq_refl)).
Defined.

(** On a collection without duplicate names, [remove_stat nm] reports
    whether a stat named [nm] was there; afterwards [get_stat] finds none,
    finds for every other name what it found before, and names stay
    distinct. *)
Theorem remove_stat_forgets_name : forall sc nm, NoDup (get_stat_names sc) ->
  let (sc', b) := remove_stat sc nm in
  b = has_stat sc nm /\ get_stat sc' nm = None /\
  (forall j, j <> nm -> get_stat sc' j = get_stat sc j) /\
  NoDup (get_stat_names sc') /\ max_stats sc' = max_stats sc.
Proof.
  intros sc nm Hd. unfold get_stat_names in *. unfold remove_stat, has_stat, get_stat.
  pose proof (remove_first_names nm _ Hd) as [N1 _].
  pose proof (remove_first_get nm _ Hd) as G.
  pose proof (fun j Hj => remove_first_other nm j (stats sc) Hj) as O.
  destruct (get_stat_list nm (stats sc)) as [s|] eqn:Eg.
  - pose proof (remove_first_present nm _ s Eg) as [P _].
    destruct (remove_first nm (stats sc)) as [l b]. simpl in *.
    split; [exact P|]. split; [exact G|]. split; [exact O|]. split; [exact N1 | reflexivity].
  - rewrite (remove_first_absent nm _ Eg) in *. simpl in *.
    split; [reflexivity|]. split; [exact Eg|]. split; [exact O|]. split; [exact N1 | reflexivity].
Qed.

Lemma remove_stat_forgets_name_witness :
  remove_stat stats_str_dex "str" = (fst (remove_stat stats_str_dex "str"), true) /\
  get_stat (fst (remove_stat stats_str_dex "str")) "str" = None.
Proof.
  assert (Hd : NoDup (get_stat_names stats_str_dex)).
  { vm_compute. constructor; [simpl; intros [H | []]; discriminate | constructor; [simpl; tauto | constructor]]. }
  pose proof (remove_stat_forgets_name stats_str_dex "str" Hd) as R.
  destruct (remove_stat stats_str_dex "str") as [sc' b]. destruct R as (R1 & R2 & _).
  subst b. split; [reflexivity | exact R2].
Defined.

(** [reset_all_to_base] keeps every stat's name, base value and bounds;
    each current value becomes the base value when that lies within the
    bounds, and lies within ordered bounds in any case. *)
Theorem reset_all_to_base_spec : forall sc,
  get_stat_names (reset_all_to_base sc) = get_stat_names sc /\
  max_stats (reset_all_to_base sc) = max_stats sc /\
  Forall2 (fun s s' => base_value s' = base_value s /\ min_value s' = min_value s /\
             max_value s' = max_value s /\
             (in_bounds (min_value s) (max_value s) (base_value s) -> current_value s' = base_value s) /\
             (bounds_ordered s -> in_bounds (min_value s) (max_value s) (current_value s')))
    (stats sc) (stats (reset_all_to_base sc)).
Proof.
  intros sc. unfold reset_all_to_base, get_stat_names. simpl.
  split; [|split; [reflexivity|]].
  - rewrite map_map. apply map_ext. intros s. unfold reset_to_base.
    exact (proj1 (set_current_spec s (base_value s))).
  - induction (stats sc) as [|s l IH]; simpl; constructor; [|exact IH].
    unfold reset_to_base. destruct (set_current_spec s (base_value s)) as (_ & A2 & A3 & A4 & _ & A6 & A7).
    tauto.
Qed.

(** [set_stat_current_value] on a missing name changes nothing and returns
    [None]. On a present name it updates the first stat with that name, which
    [get_stat] then returns. That stat keeps its base value and bounds. The
    value returned is the stored one, and with ordered bounds it is the new
    value clamped into them. Names and the other lookups are unchanged. *)
Theorem set_stat_current_value_spec : forall sc nm v,
  let (sc', r) := set_stat_current_value sc nm v in
  match get_stat sc nm with
  | None => sc' = sc /\ r = None
  | Some s => exists s', get_stat sc' nm = Some s' /\ r = Some (current_value s') /\
      base_value s' = base_value s /\ min_value s' = min_value s /\ max_value s' = max_value s /\
      (bounds_ordered s -> current_value s' = clamp_spec (min_value s) (max_value s) v) /\
      get_stat_names sc' = get_stat_names sc /\
      (forall j, j <> nm -> get_stat sc' j = get_stat sc j)
  end.
Proof.
  intros sc nm v. unfold set_stat_current_value, get_stat, get_stat_names.
  destruct (get_stat_list nm (stats sc)) as [s|] eqn:Eg.
  - set (f := fun s0 => let s' := set_current s0 v in (s', current_value s')).
    assert (Hf : forall x, name (fst (f x)) = name x) by (intros x; exact (proj1 (set_current_spec x v))).
    pose proof (update_stat_found nm f _ s Hf Eg) as U.
    destruct (update_stat nm f (stats sc)) as [l r]. destruct U as (U1 & U2 & U3 & U4).
    simpl. exists (set_current s v).
    destruct (set_current_spec s v) as (_ & A2 & A3 & A4 & A5 & _).
    split; [exact U1|]. split; [exact U2|]. tauto.
  - rewrite (update_stat_absent nm _ _ Eg). simpl. rewrite with_stats_same. split; reflexivity.
Qed.

(** [set_base_value] stores one value [r] in both [base_value] and
    [current_value] and returns it. With ordered bounds [r] is the new value
    clamped into them. With [min_value > max_value], [r] is always
    [min_value]: the explicit clamp yields [max_value], which the field
    validators then move back up to [min_value]. *)
Theorem set_base_value_spec : forall s v,
  let (s', r) := set_base_value s v in
  base_value s' = r /\ current_value s' = r /\ name s' = name s /\
  min_value s' = min_value s /\ max_value s' = max_value s /\
  (bounds_ordered s -> r = clamp_spec (min_value s) (max_value s) v) /\
  (forall m M, min_value s = Some m -> max_value s = Some M -> (M < m)%Q -> r = m).
Proof.
  intros s v. destruct (stat_data_bounds s "base_value") as [E1 E2]. simpl in E1, E2.
  unfold set_base_value.
  set (v2 := match max_value s with
             | Some M => if qgt (match min_value s with
                                 | Some m => if qlt v m then m else v
                                 | None => v end) M then M
                         else (match min_value s with
                               | Some m => if qlt v m then m else v
                               | None => v end)
             | None => match min_value s with
                       | Some m => if qlt v m then m else v
                       | None => v end
             end).
  set (s1 := set_base s v2).
  destruct (get_float_current s1) as [F1 F2].
  assert (M1 : min_value s1 = min_value s) by reflexivity.
  assert (M2 : max_value s1 = max_value s) by reflexivity.
  unfold set_current, validate_current_value. rewrite F1, F2, M1, M2. simpl.
  unfold s1, set_base, validate_base_value. rewrite E1, E2. simpl.
  refine (conj eq_refl (conj _ (conj eq_refl (conj eq_refl (conj eq_refl _))))).
  - unfold v2, qgt, qlt. destruct (min_value s) as [l|], (max_value s) as [h|]; simpl;
    qle_cases; try reflexivity; exfalso; lra.
  - unfold v2, clamp_spec, bounds_ordered, qgt, qlt.
    destruct (min_value s) as [l|], (max_value s) as [h|]; simpl;
    split; intros; try discriminate;
    repeat match goal with H : Some _ = Some _ |- _ => injection H as <- end;
    qle_cases; try reflexivity; exfalso; lra.
Qed.

(** [clear_all_stats] returns the number of stats it removed and leaves
    none. When [max_stats] is unset or at least [1] (its [ge=1] field
    constraint), any [add_stat] afterwards succeeds and yields a collection
    holding just the new stat. *)
Theorem clear_all_stats_then_add : forall sc,
  (max_stats sc = None \/ exists m, max_stats sc = Some m /\ 1 <= m) ->
  let (sc', n) := clear_all_stats sc in
  n = Z.of_nat (List.length (stats sc)) /\ get_stat_names sc' = [] /\
  (forall nm base cur minv maxv desc rep,
     add_stat sc' nm base cur minv maxv desc rep =
       (with_stats sc [StatComponent_new nm (Some base) cur minv maxv desc],
        Ret (StatComponent_new nm (Some base) cur minv maxv desc))).
Proof.
  intros sc Hm. unfold clear_all_stats. split; [reflexivity|]. split; [reflexivity|].
  intros nm base cur minv maxv desc rep. unfold add_stat. simpl.
  destruct Hm as [-> | (m & -> & Hm)]; [reflexivity|].
  replace (m <=? 0) with false by (symmetry; apply Z.leb_gt; lia). reflexivity.
Qed.

Lemma clear_all_stats_then_add_witness :
  add_stat (fst (clear_all_stats stats_str_dex)) "luck" 3 None None None "" false =
    (with_stats stats_str_dex [StatComponent_new "luck" (Some 3%Q) None None None ""],
     Ret (StatComponent_new "luck" (Some 3%Q) None None None "")).
Proof.
  pose proof (clear_all_stats_then_add stats_str_dex ltac:(right; exists 2; split; [reflexivity | lia])) as R.
  destruct (clear_all_stats stats_str_dex) as [sc' n]. destruct R as (_ & _ & R3).
  apply R3.
Defined.

(** [validate_stats_count] keeps the first [max_stats] stats (all of them
    when [max_stats] is unset or not exceeded), keeps [max_stats], and is
    idempotent. *)
Theorem validate_stats_count_truncates : forall sc,
  stats (validate_stats_count sc) =
    match max_stats sc with Some m => firstn (Z.to_nat m) (stats sc) | None => stats sc end /\
  max_stats (validate_stats_count sc) = max_stats sc /\
  validate_stats_count (validate_stats_count sc) = validate_stats_count sc /\
  (forall m, max_stats sc = Some m -> 0 <= m ->
     Z.of_nat (List.length (stats (validate_stats_count sc))) <= m).
Proof.
  intros [t l [m|]]; unfold validate_stats_count; simpl.
  - destruct (m <? Z.of_nat (List.length l)) eqn:E; simpl.
    + apply Z.ltb_lt in E.
      split; [reflexivity|]. split; [reflexivity|].
      split; [destruct (m <? Z.of_nat (List.length (firstn (Z.to_nat m) l)));
              [unfold with_stats; simpl; rewrite firstn_firstn, Nat.min_id|]; reflexivity|].
      intros m' Hm' H0. injection Hm' as <-. rewrite length_firstn. lia.
    + rewrite E. apply Z.ltb_ge in E. split; [symmetry; apply firstn_all2; lia|].
      split; [reflexivity|]. split; [reflexivity|]. intros m' Hm' _. injection Hm' as <-. exact E.
  - repeat split. discriminate.
Qed.
